(** * la_forge.bfacs: Bayes-factor utilities

    A shallow embedding of [la_forge/bfacs.py] and the properties of its
    bootstrap, thermodynamic-integration, Bayes-factor and odds-ratio
    routines.

    Conventions of the embedding:
    - a Python [float] / NumPy [float64] is a primitive binary64 [float];
    - a Python [int] is a [Z]; a length or a loop index is a [nat];
    - a raised exception is the [Raise] branch of [result];
    - NumPy 1-d arrays are lists, 2-d arrays are [ndarray] records holding
      their shape and their rows (C order);
    - the random generators are objects on a heap of generator states, the
      module-level name [rng] being bound to the object made at import. *)

From Stdlib Require Import ZArith Lia String.
From Stdlib Require Import Floats.PrimFloat Floats.FloatClass.
From Stdlib Require Floats.FloatOps Floats.FloatAxioms.
From Stdlib Require Import Numbers.Cyclic.Int63.Uint63.
From stdpp Require Import base list.

Set Default Proof Using "Type".

(** ** Python values and exceptions *)

Module Py.

Inductive exn : Set :=
| ValueError
| IndexError
| NameError
| ZeroDivisionError
| OverflowError
| TypeError
| OSError
| NegativeStdDev
| AutocorrError.

Inductive result (A : Type) : Type :=
| Ok (a : A)
| Raise (e : exn).
Arguments Ok {A} a.
Arguments Raise {A} e.

Definition rbind {A B} (r : result A) (k : A -> result B) : result B :=
  match r with
  | Ok a => k a
  | Raise e => Raise e
  end.

#[global] Instance result_bind : MBind result := fun A B k r => rbind r k.
#[global] Instance result_ret : MRet result := fun A a => Ok a.

(** [float(n)] for a length [n]. *)
Definition float_of_nat (n : nat) : float :=
  PrimFloat.of_uint63 (Uint63.of_Z (Z.of_nat n)).

(** The magnitude of a finite [x] other than zero is
    [mantissa * 2^(exponent - exponent_bias)], where [mantissa] is an
    integer of 53 bits. *)
Definition mantissa_exponent (x : float) : PrimInt63.int * PrimInt63.int :=
  let '(m, e) := PrimFloat.frshiftexp (PrimFloat.abs x) in
  (PrimFloat.normfr_mantissa m, e).

(** 2101, the offset of the exponent returned by [frshiftexp], plus the 53
    bits of the mantissa. *)
Definition exponent_bias : PrimInt63.int := 2154%uint63.

(** The whole part of the magnitude of [x] when it is below [2^53]. *)
Definition trunc63 (x : float) : option PrimInt63.int :=
  let '(m, e) := mantissa_exponent x in
  if (e <=? exponent_bias)%uint63
  then Some (m >> (exponent_bias - e))%uint63
  else None.

(** [int(x)]: truncation toward zero; [inf] raises [OverflowError] and
    [nan] raises [ValueError]. *)
Definition int (x : float) : result Z :=
  match PrimFloat.classify x with
  | NaN => Raise ValueError
  | PInf | NInf => Raise OverflowError
  | PZero | NZero => Ok 0%Z
  | PNormal | NNormal | PSubn | NSubn =>
      let mag :=
        match trunc63 x with
        | Some k => Uint63.to_Z k
        | None =>
            let '(m, e) := mantissa_exponent x in
            Z.shiftl (Uint63.to_Z m) (Uint63.to_Z (e - exponent_bias)%uint63)
        end in
      Ok (if PrimFloat.ltb x 0 then (- mag)%Z else mag)
  end.

(** [a / b] on two Python ints. *)
Definition truediv (a b : nat) : result float :=
  if Nat.eqb b 0 then Raise ZeroDivisionError
  else Ok (PrimFloat.div (float_of_nat a) (float_of_nat b)).

(** [min(l)] of a list of lengths. *)
Definition min (l : list nat) : result nat :=
  match l with
  | [] => Raise ValueError
  | x :: l' => Ok (foldl Nat.min x l')
  end.

(** [l[i]] for a non-negative index. *)
Definition index {A} (l : list A) (i : nat) : result A :=
  match l !! i with
  | Some x => Ok x
  | None => Raise IndexError
  end.

(** [l[-1]]. *)
Definition index_last {A} (l : list A) : result A :=
  match last l with
  | Some x => Ok x
  | None => Raise IndexError
  end.

(** Elements at positions [skip], [skip + k], [skip + 2 k], ... *)
Fixpoint stride_from {A} (k skip : nat) (l : list A) : list A :=
  match l with
  | [] => []
  | x :: l' =>
      match skip with
      | O => x :: stride_from k (k - 1) l'
      | S s => stride_from k s l'
      end
  end.

(** [l[::step]]. *)
Definition slice_step {A} (l : list A) (step : Z) : result (list A) :=
  if (step =? 0)%Z then Raise ValueError
  else if (0 <? step)%Z then Ok (stride_from (Z.to_nat step) 0 l)
  else Ok (stride_from (Z.to_nat (- step)) 0 (reverse l)).

(** [l[k:]] for an integer [k] of either sign. *)
Definition slice_from {A} (l : list A) (k : Z) : list A :=
  if (0 <=? k)%Z then drop (Z.to_nat k) l
  else drop (Z.to_nat (Z.of_nat (length l) + k)) l.

(** [for ii in range(n): acc = body(ii, acc)] with exceptions. *)
Definition for_range {S} (n : nat) (body : nat -> S -> result S)
    (init : S) : result S :=
  foldl (fun acc ii => rbind acc (body ii)) (Ok init) (seq 0 n).

End Py.

Import Py.

(** ** NumPy arrays *)

Module Np.

Record ndarray : Type := mk_ndarray
  { nrows : nat; ncols : nat; rows : list (list float) }.

(** The shape agrees with the stored rows. *)
Definition wf (M : ndarray) : Prop :=
  length (rows M) = nrows M /\
  Forall (fun r => length r = ncols M) (rows M).

(** [np.zeros((r, c))]. *)
Definition zeros (r c : nat) : ndarray :=
  mk_ndarray r c (replicate r (replicate c 0%float)).

(** [np.zeros(n)]. *)
Definition zeros1 (n : nat) : list float := replicate n 0%float.

(** [M[ii, jj]] read without bounds check, for stating properties. *)
Definition entry (M : ndarray) (ii jj : nat) : option float :=
  rows M !! ii ≫= fun r => r !! jj.

(** [M[:, ii]]. *)
Definition get_col (M : ndarray) (ii : nat) : result (list float) :=
  if ii <? ncols M
  then Ok ((fun r => default 0%float (r !! ii)) <$> rows M)
  else Raise IndexError.

(** [M[ii, :]]. *)
Definition get_row (M : ndarray) (ii : nat) : result (list float) :=
  if ii <? nrows M then index (rows M) ii else Raise IndexError.

(** [M[:, ii] = v]; a one-element [v] is broadcast. *)
Definition set_col (M : ndarray) (ii : nat) (v : list float)
  : result ndarray :=
  if ncols M <=? ii then Raise IndexError
  else if length v =? nrows M
  then Ok (mk_ndarray (nrows M) (ncols M)
             (zip_with (fun r x => <[ii:=x]> r) (rows M) v))
  else match v with
       | [x] => Ok (mk_ndarray (nrows M) (ncols M)
                      ((fun r => <[ii:=x]> r) <$> rows M))
       | _ => Raise ValueError
       end.

(** [a[ii] = x] on a 1-d array. *)
Definition set_item (a : list float) (ii : nat) (x : float)
  : result (list float) :=
  if ii <? length a then Ok (<[ii:=x]> a) else Raise IndexError.

(** [np.flip(M)] with the default [axis=None]: every axis is reversed. *)
Definition flip (M : ndarray) : ndarray :=
  mk_ndarray (nrows M) (ncols M) (reverse (reverse <$> rows M)).

(** Reversal of axis 1 only, [np.flip(M, axis=1)]. *)
Definition flip_columns (M : ndarray) : ndarray :=
  mk_ndarray (nrows M) (ncols M) (reverse <$> rows M).

End Np.

Import Np.

(** ** The chain accessor *)

(** Modelled from the spec: the [Core] classes are not part of this module.
    An accessor exposes [params], the ordered parameter names, and
    [get_param(name, thin_by=1)], which returns the full sample sequence
    of that name or, with [thin_by], the strided one. *)
Record accessor (K : Type) : Type := mk_accessor
  { params : list K; chain : K -> list float }.
Arguments mk_accessor {K} _ _.
Arguments params {K} _.
Arguments chain {K} _ _.

(** Modelled from the spec: [core.get_param(param, thin_by=thin_by)] is the
    chain of [param] taken with the stride [thin_by]. *)
Definition get_param {K} (core : accessor K) (param : K) (thin_by : Z)
  : result (list float) :=
  slice_step (chain core param) thin_by.

(** ** Thermodynamic integration: the temperature ladder *)

(** First loop of [make_betalike]: the chain length of every temperature. *)
Definition chain_lengths_loop {K} (slices_core : accessor K) (temps : list K)
  : result (list nat) :=
  for_range (length temps)
    (fun ii chain_lengths =>
       t ← index temps ii;
       c ← get_param slices_core t 1;
       Ok (chain_lengths ++ [length c]))
    [].

(** Second loop of [make_betalike]: the trailing samples of every chain. *)
Definition betalike_loop {K} (slices_core : accessor K) (temps : list K)
    (min_length : nat) (betalike : ndarray) : result ndarray :=
  for_range (length temps)
    (fun ii betalike =>
       t ← index temps ii;
       hot_chain ← get_param slices_core t 1;
       set_col betalike ii
         (slice_from hot_chain
            (Z.of_nat (length hot_chain) - Z.of_nat min_length)))
    betalike.

Definition make_betalike {K} (slices_core : accessor K)
  : result (list K * ndarray) :=
  let temps := params slices_core in
  chain_lengths ← chain_lengths_loop slices_core temps;
  let num_temps := length chain_lengths in
  min_length ← Py.min chain_lengths;
  let betalike := zeros min_length num_temps in
  betalike ← betalike_loop slices_core temps min_length betalike;
  Ok (temps, betalike).

(** ** Random generators *)

(** A NumPy [Generator]: a state and the bounded-integer draw that
    [Generator.choice] is built on, together with the seeding from
    operating-system entropy done by [np.random.default_rng()]. *)
Class Generator : Type := mk_generator
  { gen_state : Type;
    entropy : Type;
    integers : gen_state -> nat -> nat * gen_state;
    seed_from_os : entropy -> gen_state * entropy;
    integers_lt : forall g n, 0 < n -> (integers g n).1 < n }.

(** What happens to generator objects, in program order. *)
Inductive event : Set :=
| EvNew (ref : nat)
| EvDraw (ref : nat) (high idx : nat).

(** ** The external numerical routines *)

(** The routines of emcee, NumPy and SciPy that the module calls on
    floating-point data. They are kept abstract: the module only composes
    them. [Numerics] holds the autocorrelation estimator and the summary
    statistics, [Quadrature] what the integration step adds; [interp1d x y]
    builds the default (linear) interpolant, which is then applied to new
    abscissae. *)
Class Numerics : Type := mk_numerics
  { integrated_time : list float -> result float;
    np_mean : list float -> float;
    np_std : list float -> float }.

Class Quadrature : Type := mk_quadrature
  { np_log10 : float -> float;
    np_power10 : float -> float;
    np_linspace : float -> float -> nat -> list float;
    interp1d : list float -> list float
               -> result (list float -> result (list float));
    np_trapz : list float -> list float -> result float }.

Section Embedding.
Context {G : Generator} {L : Numerics} {Q : Quadrature}.

(** The interpreter state: the generator objects, the entropy of the
    operating system, the binding of the module-level name [rng], and the
    history of generator events. *)
Record world : Type := mk_world
  { generators : list gen_state;
    os_entropy : entropy;
    module_rng : option nat;
    trace : list event }.

(** Computations that may raise and that act on the interpreter state; the
    state reached when an exception is raised is kept. *)
Definition M (A : Type) : Type := world -> result A * world.

Definition M_ret {A} (a : A) : M A := fun w => (Ok a, w).

Definition M_bind {A B} (c : M A) (k : A -> M B) : M B :=
  fun w => match c w with
           | (Ok a, w') => k a w'
           | (Raise e, w') => (Raise e, w')
           end.

#[global] Instance M_mret : MRet M := @M_ret.
#[global] Instance M_mbind : MBind M := fun A B k c => M_bind c k.

Definition lift {A} (r : result A) : M A := fun w => (r, w).

(** [for ii in range(n): acc = body(ii, acc)] acting on the state. *)
Definition for_rangeM {S} (n : nat) (body : nat -> S -> M S) (init : S)
  : M S :=
  foldl (fun acc ii => M_bind acc (body ii)) (M_ret init) (seq 0 n).

(** [np.random.default_rng()]: a new generator object seeded from the
    operating system. *)
Definition default_rng : M nat :=
  fun w =>
    let ref := length (generators w) in
    let '(g, e) := seed_from_os (os_entropy w) in
    (Ok ref,
     mk_world (generators w ++ [g]) e (module_rng w) (trace w ++ [EvNew ref])).

(** Binding the module-level name [rng] to a generator object. *)
Definition bind_module_rng (ref : nat) : M unit :=
  fun w =>
    (Ok tt, mk_world (generators w) (os_entropy w) (Some ref) (trace w)).

(** Line 20, run once when the module is imported:
    [rng = np.random.default_rng()]. *)
Definition module_load : M unit :=
  ref ← default_rng;
  bind_module_rng ref.

(** Reading the module-level name [rng]. *)
Definition global_rng : M nat :=
  fun w => match module_rng w with
           | Some ref => (Ok ref, w)
           | None => (Raise NameError, w)
           end.

(** [m] successive draws below [n]. *)
Fixpoint draw_row (g : gen_state) (n m : nat) : list nat * gen_state :=
  match m with
  | O => ([], g)
  | S m' =>
      let '(i, g1) := integers g n in
      let '(l, g2) := draw_row g1 n m' in
      (i :: l, g2)
  end.

(** [r] rows of [c] draws below [n], filled in C order. *)
Fixpoint draw_rows (g : gen_state) (n r c : nat)
  : list (list nat) * gen_state :=
  match r with
  | O => ([], g)
  | S r' =>
      let '(row, g1) := draw_row g n c in
      let '(rest, g2) := draw_rows g1 n r' c in
      (row :: rest, g2)
  end.

(** [a[idx]] for a drawn index. *)
Definition take_at (a : list float) (idx : nat) : float :=
  default nan (a !! idx).

(** [rng.choice(a, (r, c))]: draws with replacement; an empty [a] is an
    error unless no sample is taken. *)
Definition choice (ref : nat) (a : list float) (shape : nat * nat)
  : M ndarray :=
  fun w =>
    let '(r, c) := shape in
    match generators w !! ref with
    | None => (Raise NameError, w)
    | Some g =>
        if (length a =? 0) && negb (r * c =? 0) then (Raise ValueError, w)
        else
          let '(idx, g') := draw_rows g (length a) r c in
          (Ok (mk_ndarray r c ((fun row : list nat => take_at a <$> row) <$> idx)),
           mk_world (<[ref:=g']> (generators w)) (os_entropy w)
             (module_rng w)
             (trace w ++ (EvDraw ref (length a) <$> concat idx)))
    end.

(** A dimension of a shape must not be negative. *)
Definition as_dim (z : Z) : result nat :=
  if (z <? 0)%Z then Raise ValueError else Ok (Z.to_nat z).

(** The Python literal [0.1], that is the binary64 number nearest to 1/10. *)
Definition tenth : float := 0x1.999999999999ap-4%float.

(** [int(0.1 * len(a))] used as a dimension. *)
Definition tenth_of_len {A} (a : list A) : result nat :=
  z ← Py.int (tenth * float_of_nat (length a))%float;
  as_dim z.

(** ** Generic bootstrap *)

Definition bootstrap {K} (core : accessor K) (param : K)
    (num_reals num_samples : nat) : M ndarray :=
  tau ← lift (x ← get_param core param 1; t ← integrated_time x; Py.int t);
  array ← lift (get_param core param tau);
  rng ← global_rng;
  choice rng array (num_samples, num_reals).

(** ** Thermodynamic integration *)

(** Body of the loop of [ti_bootstrap] for the column [ii]. *)
Definition ti_bootstrap_column (betalike : ndarray) (num_reals : nat)
    (rng : nat) (ii : nat) (new_means : ndarray) : M ndarray :=
  col ← lift (get_col betalike ii);
  tau ← lift (t ← integrated_time col; Py.int t);
  trimmed_like ← lift (slice_step col tau);
  num_samples ← lift (tenth_of_len trimmed_like);
  draws ← choice rng col (num_reals, num_samples);
  lift (set_col new_means ii (np_mean <$> rows draws)).

(** [ti_bootstrap] up to and including its loop: the assembled matrix of
    realization means. *)
Definition ti_bootstrap_assemble (betalike : ndarray)
    (num_chains num_reals : nat) : M ndarray :=
  rng ← default_rng;
  let new_means := zeros num_reals num_chains in
  for_rangeM num_chains (ti_bootstrap_column betalike num_reals rng) new_means.

Definition ti_bootstrap (betalike : ndarray) (num_chains num_reals : nat)
  : M ndarray :=
  new_means ← ti_bootstrap_assemble betalike num_chains num_reals;
  mret (flip new_means).

(** Body of the loop of [ti_log_evidence] for the realization [ii]. *)
Definition ln_Z_step (new_means : ndarray) (x x_new : list float)
    (ii : nat) (ln_Z_arr : list float) : result (list float) :=
  y ← get_row new_means ii;
  y_spl ← interp1d x y;
  y_new ← y_spl x_new;
  ln_Z ← np_trapz y_new (np_power10 <$> x_new);
  set_item ln_Z_arr ii ln_Z.

(** [num=10000], the size of the interpolation grid. *)
Definition num_points : nat := Z.to_nat 10000.

(** [ti_log_evidence] with [plot=False]; printing under [verbose] does not
    take part in the result. *)
Definition ti_log_evidence (slices_core : accessor float) (iterations : nat)
  : M (float * float) :=
  '(temps, betalike) ← lift (make_betalike slices_core);
  let inv_temps := (fun t => 1 / t)%float <$> reverse temps in
  let num_chains := length inv_temps in
  new_means ← ti_bootstrap betalike num_chains iterations;
  let ln_Z_arr := zeros1 iterations in
  let x := np_log10 <$> inv_temps in
  x_first ← lift (index x 0);
  x_last ← lift (index_last x);
  let x_new := np_linspace x_first x_last num_points in
  ln_Z_arr ← lift (for_range iterations (ln_Z_step new_means x x_new) ln_Z_arr);
  mret (np_mean ln_Z_arr, np_std ln_Z_arr).

(** ** Product-space odds ratios *)

(** [row > lo] and [row <= hi], element by element. *)
Definition mask_gt (row : list float) (lo : float) : list bool :=
  (fun s => PrimFloat.ltb lo s) <$> row.

Definition mask_le (row : list float) (hi : float) : list bool :=
  (fun s => PrimFloat.leb s hi) <$> row.

(** [m1 & m2]. *)
Definition mask_and (m1 m2 : list bool) : list bool := zip_with andb m1 m2.

(** [np.where(mask)[0]]: the positions that hold [True]. *)
Fixpoint where_from (start : nat) (mask : list bool) : list nat :=
  match mask with
  | [] => []
  | b :: mask' =>
      if b then start :: where_from (S start) mask'
      else where_from (S start) mask'
  end.

Definition np_where (mask : list bool) : list nat := where_from 0 mask.

(** A domain [[lo, hi]] of the [nmodel] parameter. *)
Definition domain : Type := float * float.

(** [len(np.where((row > d[0]) & (row <= d[1]))[0])]. *)
Definition domain_count (row : list float) (d : domain) : nat :=
  length (np_where (mask_and (mask_gt row d.1) (mask_le row d.2))).

(** Body of the loop of [odds_ratio_bootstrap] for the realization [ii]. *)
Definition odds_ratio_step (new_nmodels : ndarray) (domains : domain * domain)
    (ii : nat) (ors : list float) : result (list float) :=
  row ← get_row new_nmodels ii;
  q ← truediv (domain_count row domains.1) (domain_count row domains.2);
  set_item ors ii q.

Definition default_domains : domain * domain :=
  ((-0.5, 0.5), (0.5, 1.5))%float.

Definition odds_ratio_bootstrap (hmcore : accessor string) (num_reals : nat)
    (domains : domain * domain) : M (float * float) :=
  nmodel ← lift (get_param hmcore "nmodel"%string 1);
  rng ← default_rng;
  tau ← lift (t ← integrated_time nmodel; Py.int t);
  thinned_nmodel ← lift (slice_step nmodel tau);
  num_samples ← lift (tenth_of_len thinned_nmodel);
  new_nmodels ← choice rng nmodel (num_reals, num_samples);
  let ors := zeros1 (nrows new_nmodels) in
  ors ← lift (for_range num_reals (odds_ratio_step new_nmodels domains) ors);
  mret (np_mean ors, np_std ors).

End Embedding.

(** ** Bayes factors with propagated uncertainties *)

(** The functions [exp] and [log10] of the module [math] of Python, on
    binary64 numbers; each may raise. They are kept abstract. What is
    used of them is that [math.exp] raises [OverflowError] when its result
    would exceed the largest binary64 number, which is so for every
    finite argument from 710 on; that it returns zero, without an
    exception, when its result is below half the smallest positive
    binary64 number, which is so for every argument up to -750; and that
    [math.log10] raises [ValueError] on zero and on negative numbers. *)
Class MathLib : Type := mk_mathlib
  { math_exp : float -> result float;
    math_log10 : float -> result float;
    math_exp_overflow : forall x,
      PrimFloat.leb 710 x = true -> PrimFloat.ltb x infinity = true ->
      math_exp x = Raise OverflowError;
    math_exp_underflow : forall x,
      PrimFloat.leb x (-750) = true -> math_exp x = Ok 0%float;
    math_log10_domain : forall x,
      PrimFloat.leb x 0 = true -> math_log10 x = Raise ValueError }.

(** The package [uncertainties], kept abstract: [ufloat] of a pair, the
    difference of two numbers with uncertainty, [umath.exp] and
    [umath.log10], each of which may raise ([ufloat] raises
    [NegativeStdDev] on a negative standard deviation, and [TypeError] in
    a version of the package that takes no tuple), and the attributes [.n]
    (nominal value) and [.s] (standard deviation, computed when it is
    read). What is used of the package is that the nominal value of a
    result is the value the plain operation gives on the nominal values
    of the operands, and that an exception of the plain operation is an
    exception of the operation of the package. *)
Class Uncertainties {M : MathLib} : Type := mk_uncertainties
  { AffineScalarFunc : Type;
    ufloat : float * float -> result AffineScalarFunc;
    usub : AffineScalarFunc -> AffineScalarFunc -> result AffineScalarFunc;
    umath_exp : AffineScalarFunc -> result AffineScalarFunc;
    umath_log10 : AffineScalarFunc -> result AffineScalarFunc;
    nominal_value : AffineScalarFunc -> float;
    std_dev : AffineScalarFunc -> result float;
    ufloat_nominal : forall v u, ufloat v = Ok u -> nominal_value u = v.1;
    usub_nominal : forall a b c,
      usub a b = Ok c ->
      nominal_value c = (nominal_value a - nominal_value b)%float;
    umath_exp_raise : forall a e,
      math_exp (nominal_value a) = Raise e -> umath_exp a = Raise e;
    umath_exp_nominal : forall a b,
      umath_exp a = Ok b -> math_exp (nominal_value a) = Ok (nominal_value b);
    umath_log10_raise : forall a e,
      math_log10 (nominal_value a) = Raise e -> umath_log10 a = Raise e;
    umath_log10_nominal : forall a b,
      umath_log10 a = Ok b ->
      math_log10 (nominal_value a) = Ok (nominal_value b) }.

Section BayesFactorEmbedding.
Context {M : MathLib} {U : Uncertainties}.

(** What [log10_bf] computes before it looks at [scale]: the two numbers
    with uncertainty, their difference, its exponential and the base-10
    logarithm of that. *)
Definition log10_bf_terms (log_ev1 log_ev2 : float * float)
  : result (AffineScalarFunc * AffineScalarFunc * AffineScalarFunc) :=
  log_evidence1 ← ufloat log_ev1;
  log_evidence2 ← ufloat log_ev2;
  log_bf ← usub log_evidence2 log_evidence1;
  bf ← umath_exp log_bf;
  log10_bf ← umath_log10 bf;
  Ok (log_bf, bf, log10_bf).

(** The tuple [u.n, u.s]. *)
Definition n_and_s (u : AffineScalarFunc) : result (float * float) :=
  s ← std_dev u;
  Ok (nominal_value u, s).

(** [log10_bf]; a call that falls off the end of the function returns
    [None]. *)
Definition log10_bf (log_ev1 log_ev2 : float * float) (scale : string)
  : result (option (float * float)) :=
  terms ← log10_bf_terms log_ev1 log_ev2;
  let '(log_bf, bf, log10_bf) := terms in
  if String.eqb scale "log" then
    p ← n_and_s log_bf; Ok (Some p)
  else if String.eqb scale "1" then
    p ← n_and_s bf; Ok (Some p)
  else if String.eqb scale "log10" then
    p ← n_and_s log10_bf; Ok (Some p)
  else Ok None.

End BayesFactorEmbedding.

(** ** Text output *)

(** The files of the machine, by path, and the paths that can be opened
    for writing and written to. *)
Record filesystem : Type := mk_filesystem
  { files : string -> option string; writable : string -> bool }.

(** [open(outfile, 'w')]: the file is made empty; a path that cannot be
    opened for writing raises [OSError]. *)
Definition fs_open_w (outfile : string) (fs : filesystem)
  : result filesystem :=
  if writable fs outfile
  then Ok (mk_filesystem
             (fun path =>
                if String.eqb path outfile then Some EmptyString
                else files fs path)
             (writable fs))
  else Raise OSError.

(** [f.write(text)] on the file opened at [outfile]. *)
Definition fs_write (outfile text : string) (fs : filesystem) : filesystem :=
  mk_filesystem
    (fun path =>
       if String.eqb path outfile
       then Some (String.append (default EmptyString (files fs path)) text)
       else files fs path)
    (writable fs).

(** How numbers are printed: [str] of a temperature and the format
    ['%.18e'] that [np.savetxt] applies to a matrix entry. *)
Class Formatting (K : Type) : Type := mk_formatting
  { py_str : K -> string; fmt_e18 : float -> string }.

Definition newline : string := String (Ascii.ascii_of_nat 10) EmptyString.

(** [' '.join(fields)]. *)
Definition join_spaces (fields : list string) : string :=
  String.concat " " fields.

(** The line that [np.savetxt] writes for one row. *)
Definition savetxt_line {K} `{Formatting K} (row : list float) : string :=
  String.append (join_spaces (fmt_e18 <$> row)) newline.

(** [np.savetxt(f, X)]: one line per row, written in order. *)
Definition savetxt {K} `{Formatting K} (outfile : string) (X : ndarray)
    (fs : filesystem) : filesystem :=
  foldl (fun fs row => fs_write outfile (savetxt_line row) fs) fs (rows X).

(** The loop of [core_to_txt] that prints the temperatures. *)
Definition temps_str_loop {K} `{Formatting K} (temps : list K)
  : result (list string) :=
  for_range (length temps)
    (fun ii temps_str =>
       t ← index temps ii;
       Ok (temps_str ++ [py_str t]))
    [].

Definition core_to_txt {K} `{Formatting K} (slices_core : accessor K)
    (outfile : string) (fs : filesystem) : result unit * filesystem :=
  match make_betalike slices_core with
  | Raise e => (Raise e, fs)
  | Ok (temps, betalike) =>
      match temps_str_loop temps with
      | Raise e => (Raise e, fs)
      | Ok temps_str =>
          match fs_open_w outfile fs with
          | Raise e => (Raise e, fs)
          | Ok fs =>
              let fs := fs_write outfile (join_spaces temps_str) fs in
              let fs := fs_write outfile newline fs in
              (Ok tt, savetxt outfile betalike fs)
          end
      end
  end.

(** * Specifications *)

(** ** The evidence estimate, as it is specified *)

(** [f] on every element, in order, up to the first exception. *)
Fixpoint result_map {A B : Type} (f : A -> result B) (l : list A)
  : result (list B) :=
  match l with
  | [] => Ok []
  | a :: l' =>
      b ← f a;
      bs ← result_map f l';
      Ok (b :: bs)
  end.

Section EvidenceSpec.
Context {G : Generator} {L : Numerics} {Q : Quadrature}.





End EvidenceSpec.

(** ** Which generator a run draws from *)

Section Frames.
Context {G : Generator}.

(** From [w] to [w'] nothing happened to the generators but draws on the
    object [ref]. *)
Definition draws_only (ref : nat) (w w' : world) : Prop :=
  (exists evs,
     trace w' = trace w ++ evs /\
     Forall (fun e => exists high idx, e = EvDraw ref high idx) evs) /\
  length (generators w') = length (generators w) /\
  (forall j, j <> ref -> generators w' !! j = generators w !! j) /\
  os_entropy w' = os_entropy w /\
  module_rng w' = module_rng w.

(** From [w] to [w'] every generator event is a draw on the object bound to
    the module-level name [rng]; no generator is made and no entropy is
    taken from the operating system. *)
Definition module_level_draws_only (w w' : world) : Prop :=
  (exists evs,
     trace w' = trace w ++ evs /\
     Forall (fun e => exists ref high idx,
               module_rng w = Some ref /\ e = EvDraw ref high idx) evs) /\
  length (generators w') = length (generators w) /\
  os_entropy w' = os_entropy w /\
  module_rng w' = module_rng w.

(** From [w] to [w'] one generator is made first, and every later event is
    a draw on it; the generators that existed in [w], the module-level one
    among them, are left as they were. *)
Definition fresh_generator_draws_only (w w' : world) : Prop :=
  (exists evs,
     trace w' = trace w ++ EvNew (length (generators w)) :: evs /\
     Forall (fun e => exists high idx,
               e = EvDraw (length (generators w)) high idx) evs) /\
  length (generators w') = S (length (generators w)) /\
  (forall j, j < length (generators w) ->
     generators w' !! j = generators w !! j) /\
  module_rng w' = module_rng w.

(** The final state of a computation is always related to its initial
    state by [P]. *)
Definition run_keeps (P : world -> world -> Prop) {A : Type} (c : M A)
  : Prop :=
  forall w, P w (c w).2.

End Frames.

(** ** Where the columns of the realization means come from *)

Section ColumnSources.
Context {L : Numerics}.

(** The column [ii] of [M] holds the means of realizations drawn from the
    column [ii] of [betalike]. *)
Definition column_from (betalike : ndarray) (num_reals : nat) (M : ndarray)
    (ii : nat) : Prop :=
  exists col draws,
    get_col betalike ii = Ok col /\
    get_col M ii = Ok (np_mean <$> rows draws) /\
    length (rows draws) = num_reals /\
    forall row x, row ∈ rows draws -> x ∈ row -> x ∈ col.

End ColumnSources.


(** ** Checking [int(0.1 * n)] by evaluation *)

(** [int(0.1 * i)] is the quotient of [i] by ten. *)
Definition tenth_ok (i : PrimInt63.int) : bool :=
  let x := (tenth * PrimFloat.of_uint63 i)%float in
  match PrimFloat.classify x with
  | PZero => (i / 10 =? 0)%uint63
  | PNormal =>
      negb (PrimFloat.ltb x 0) &&
      match trunc63 x with
      | Some k => (k =? i / 10)%uint63
      | None => false
      end
  | _ => false
  end.

(** [tenth_ok] at [i], [i + 1], ..., [i + fuel - 1]. *)
Fixpoint tenth_ok_from (fuel : nat) (i : PrimInt63.int) : bool :=
  match fuel with
  | O => true
  | S k => if tenth_ok i then tenth_ok_from k (i + 1)%uint63 else false
  end.

(** The lengths for which the check is run: those below ten million. *)
Definition tenth_bound : nat := Z.to_nat 10000000.

(** * Runs on sample inputs *)

(** ** Instances used to run the embedding *)

(** A generator that replays a recorded tape of raw draws, each reduced
    below the requested bound; seeding hands out the next recorded tape. *)
Definition tape_integers (g : list nat) (n : nat) : nat * list nat :=
  match g with
  | [] => (0, [])
  | x :: g' => (x mod n, g')
  end.

Definition tape_seed (e : list (list nat)) : list nat * list (list nat) :=
  match e with
  | [] => ([], [])
  | t :: e' => (t, e')
  end.

Definition tape_integers_lt (g : list nat) (n : nat) (H : 0 < n)
  : (tape_integers g n).1 < n :=
  match g with
  | [] => H
  | x :: _ => Nat.mod_upper_bound x n (Nat.neq_sym _ _ (Nat.lt_neq _ _ H))
  end.

Definition tape_generator : Generator :=
  mk_generator (list nat) (list (list nat)) tape_integers tape_seed
    tape_integers_lt.

(** Statistics by left-to-right summation, and an autocorrelation estimator
    that answers a fixed time [tau] or fails when there is none. *)
Definition seq_mean (l : list float) : float :=
  (foldl PrimFloat.add 0 l / float_of_nat (length l))%float.

Definition seq_std (l : list float) : float :=
  let m := seq_mean l in
  PrimFloat.sqrt
    (seq_mean ((fun x => (x - m) * (x - m))%float <$> l)).

Definition fixed_tau_numerics (tau : option float) : Numerics :=
  mk_numerics
    (fun _ => match tau with Some t => Ok t | None => Raise AutocorrError end)
    seq_mean seq_std.

(** The interpreter state before the module is imported. *)
Definition fresh_world (e : list (list nat)) : @world tape_generator :=
  @mk_world tape_generator [] e None [].

(** ** Sample inputs *)

(** A ladder of three temperatures, hottest first, with chains of unequal
    length. *)
Definition ladder_chain (t : float) : list float :=
  if PrimFloat.eqb t 4 then [1; 2; 3; 4; 5]%float
  else if PrimFloat.eqb t 2 then [10; 20; 30]%float
  else [7; 8; 9; 6]%float.

Definition ladder_core : accessor float :=
  mk_accessor [4; 2; 1]%float ladder_chain.

(** A hypermodel chain whose samples all lie in the first domain. *)
Definition one_model_core : accessor string :=
  mk_accessor ["nmodel"%string]
    (fun _ => [0; 0.25; 0; 0.25; 0; 0.25; 0; 0.25; 0; 0.25;
               0; 0.25; 0; 0.25; 0; 0.25; 0; 0.25; 0; 0.25]%float).

(** A chain of twenty distinct samples. *)
Definition twenty_core : accessor string :=
  mk_accessor ["x"%string]
    (fun _ => (fun n => float_of_nat n) <$> seq 0 20).

(** The interpreter state after the import of the module, for the replay
    generator, with the tape [t0] for the module-level generator and the
    tapes [e] left for later seedings. *)
Definition loaded_world (t0 : list nat) (e : list (list nat))
  : @world tape_generator :=
  (@module_load tape_generator (fresh_world (t0 :: e))).2.

(** The estimator answers [tau = 2.5], so chains are thinned by 2. *)
Definition tau_2_numerics : Numerics := fixed_tau_numerics (Some 2.5%float).

(** A one-column matrix holding the twenty samples of [twenty_core]. *)
Definition twenty_column : ndarray :=
  mk_ndarray 20 1 ((fun x => [x]) <$> chain twenty_core "x"%string).

(** Two columns of twenty samples: [n] and [100 + n]. *)
Definition two_columns : ndarray :=
  mk_ndarray 20 2
    ((fun n => [float_of_nat n; float_of_nat (100 + n)]) <$> seq 0 20).

(** A hypermodel chain of twenty samples spread over both default
    domains. *)
Definition two_model_core : accessor string :=
  mk_accessor ["nmodel"%string]
    (fun _ => [0; 1; 0.25; 0.75; 0; 1; 0.5; 0.75; 0; 1;
               0; 1; 0.25; 0.75; 0; 1; 0.5; 0.75; 0; 1]%float).

(** The second column of [two_columns], and what thinning by 2 keeps of
    it. *)
Definition hundreds_column : list float :=
  (fun n => float_of_nat (100 + n)) <$> seq 0 20.

Definition hundreds_thinned : list float :=
  (fun n => float_of_nat (100 + 2 * n)) <$> seq 0 10.

(** What thinning by 2 keeps of the chain of [two_model_core]. *)
Definition two_model_thinned : list float :=
  [0; 0.25; 0; 0.5; 0; 0; 0.25; 0; 0.5; 0]%float.

(** A way of printing numbers that keeps one digit of the whole part,
    enough to tell the fields of a written file apart. *)
Definition digit_of (x : float) : string :=
  match Py.int x with
  | Ok z => String (Ascii.ascii_of_nat (48 + Z.to_nat (z mod 10))) EmptyString
  | Raise _ => "?"%string
  end.

Definition digit_formatting : Formatting float :=
  mk_formatting float digit_of digit_of.

(** A [math] and an [uncertainties] to run [log10_bf]: the exponential by
    its power series on [x / 1024] followed by ten squarings, the
    logarithm by the series of the inverse hyperbolic tangent on the
    mantissa, and numbers with uncertainty as pairs of a nominal value and
    a standard deviation, propagated to first order (the two operands of
    the one subtraction of [log10_bf] are independent). The values are
    approximations, and the standard deviations are computed at once and
    never raise; [sample_exp] and [sample_log10] raise as [math.exp] and
    [math.log10] do: [OverflowError] on an exponential beyond the largest
    binary64 number, [ValueError] on the logarithm of a number that is
    not positive. *)
Fixpoint exp_series (n : nat) (y i : float) : float :=
  match n with
  | O => 1
  | S n' => 1 + y / i * exp_series n' y (i + 1)
  end.

Fixpoint square_times (n : nat) (v : float) : float :=
  match n with
  | O => v
  | S n' => square_times n' (v * v)
  end.

Definition sample_exp (x : float) : result float :=
  if PrimFloat.leb 710 x && PrimFloat.ltb x infinity
  then Raise OverflowError
  else if PrimFloat.leb x (-750) then Ok 0%float
  else
    let v := square_times 10 (exp_series 16 (x / 1024) 1) in
    if PrimFloat.ltb x infinity && PrimFloat.eqb v infinity
    then Raise OverflowError
    else Ok v.

Fixpoint atanh_series (n : nat) (z2 k : float) : float :=
  match n with
  | O => 0
  | S n' => 1 / k + z2 * atanh_series n' z2 (k + 2)
  end.

Definition ln_2 : float := 0x1.62e42fefa39efp-1%float.
Definition ln_10 : float := 0x1.26bb1bbb55516p+1%float.

Definition sample_ln (v : float) : float :=
  let '(m, e) := PrimFloat.frshiftexp v in
  let z := ((m - 1) / (m + 1))%float in
  (2 * z * atanh_series 24 (z * z) 1
   + (PrimFloat.of_uint63 e - 2101) * ln_2)%float.

Definition sample_log10 (v : float) : result float :=
  if PrimFloat.leb v 0 then Raise ValueError
  else if PrimFloat.eqb v infinity then Ok infinity
  else Ok (sample_ln v / ln_10)%float.

Definition sample_math : MathLib :=
  mk_mathlib sample_exp sample_log10
    ltac:(intros x H1 H2; unfold sample_exp; rewrite H1, H2; reflexivity)
    ltac:(intros x H; unfold sample_exp; rewrite H;
          rewrite FloatAxioms.leb_spec in H |- *;
          let v := eval vm_compute in (FloatOps.Prim2SF (-750)) in
          change (FloatOps.Prim2SF (-750)) with v in H;
          let v := eval vm_compute in (FloatOps.Prim2SF 710) in
          change (FloatOps.Prim2SF 710) with v;
          unfold SpecFloat.SFleb, SpecFloat.SFcompare in H |- *;
          destruct (FloatOps.Prim2SF x) as [[|]|[|]| |[|] m e];
          try reflexivity; discriminate H)
    ltac:(intros x H; unfold sample_log10; rewrite H; reflexivity).

Definition sample_ufloat (v : float * float) : result (float * float) :=
  if PrimFloat.ltb v.2 0 then Raise NegativeStdDev else Ok v.

Definition sample_usub (a b : float * float) : result (float * float) :=
  Ok (a.1 - b.1, PrimFloat.sqrt (a.2 * a.2 + b.2 * b.2))%float.

Definition sample_umath_exp (a : float * float) : result (float * float) :=
  v ← sample_exp a.1;
  Ok (v, PrimFloat.abs (v * a.2)).

Definition sample_umath_log10 (a : float * float) : result (float * float) :=
  v ← sample_log10 a.1;
  Ok (v, PrimFloat.abs (a.2 / (a.1 * ln_10))).

Definition sample_uncertainties : @Uncertainties sample_math :=
  @mk_uncertainties sample_math (float * float)
    sample_ufloat sample_usub sample_umath_exp sample_umath_log10
    fst (fun a => Ok a.2)
    ltac:(intros v u; unfold sample_ufloat;
          destruct (PrimFloat.ltb v.2 0); [discriminate|];
          by intros [= <-])
    ltac:(intros a b c; unfold sample_usub; by intros [= <-])
    ltac:(intros a e; unfold sample_umath_exp; cbn;
          by intros ->)
    ltac:(intros a b; unfold sample_umath_exp; cbn;
          destruct (sample_exp a.1); [|discriminate]; by intros [= <-])
    ltac:(intros a e; unfold sample_umath_log10; cbn;
          by intros ->)
    ltac:(intros a b; unfold sample_umath_log10; cbn;
          destruct (sample_log10 a.1); [|discriminate]; by intros [= <-]).

(** The same numbers with a [ufloat] that takes no tuple. *)
Definition uncertainties_no_tuple : @Uncertainties sample_math :=
  @mk_uncertainties sample_math (float * float)
    (fun _ => Raise TypeError) sample_usub sample_umath_exp
    sample_umath_log10 fst (fun a => Ok a.2)
    ltac:(discriminate)
    ltac:(intros a b c; unfold sample_usub; by intros [= <-])
    ltac:(intros a e; unfold sample_umath_exp; cbn;
          by intros ->)
    ltac:(intros a b; unfold sample_umath_exp; cbn;
          destruct (sample_exp a.1); [|discriminate]; by intros [= <-])
    ltac:(intros a e; unfold sample_umath_log10; cbn;
          by intros ->)
    ltac:(intros a b; unfold sample_umath_log10; cbn;
          destruct (sample_log10 a.1); [|discriminate]; by intros [= <-]).


(** Files that all hold the text [old]; every path but the empty one can
    be opened for writing. *)
Definition sample_files : filesystem :=
  mk_filesystem (fun _ => Some "old"%string)
    (fun path => negb (String.eqb path EmptyString)).

(** * Properties *)

(** ** Python sequences and loops *)

Ltac result_simpl :=
  unfold mbind, mret, result_bind, result_ret; cbn [rbind].

Section PyFacts.
Context {A : Type}.

Lemma stride_from_one (l : list A) : stride_from 1 0 l = l.
Proof. induction l as [|x l IH]; simpl; [done|]. by rewrite IH. Qed.

Lemma slice_step_one (l : list A) : slice_step l 1 = Ok l.
Proof. unfold slice_step. cbn. by rewrite stride_from_one. Qed.

Lemma slice_from_trailing (l : list A) (m : nat) :
  m <= length l ->
  slice_from l (Z.of_nat (length l) - Z.of_nat m) = drop (length l - m) l.
Proof.
  intros Hm. unfold slice_from.
  destruct (Z.leb_spec 0 (Z.of_nat (length l) - Z.of_nat m)); [|lia].
  f_equal. lia.
Qed.

Lemma index_lookup (l : list A) (i : nat) (x : A) :
  l !! i = Some x -> index l i = Ok x.
Proof. unfold index. by intros ->. Qed.

Lemma for_range_S (n : nat) (body : nat -> A -> result A) (init : A) :
  for_range (S n) body init = rbind (for_range n body init) (body n).
Proof. unfold for_range. by rewrite seq_S, foldl_app. Qed.

Lemma for_range_ext (n : nat) (body1 body2 : nat -> A -> result A)
    (init : A) :
  (forall ii acc, ii < n -> body1 ii acc = body2 ii acc) ->
  for_range n body1 init = for_range n body2 init.
Proof.
  induction n as [|n IH]; intros Hext; [done|].
  rewrite !for_range_S, IH by (intros; apply Hext; lia).
  destruct (for_range n body2 init) as [acc|e]; [|done].
  simpl. apply Hext. lia.
Qed.

End PyFacts.

Lemma py_min_spec (x : nat) (l : list nat) :
  (forall y, y ∈ x :: l -> foldl Nat.min x l <= y) /\
  foldl Nat.min x l ∈ x :: l.
Proof.
  revert x. induction l as [|z l IH]; intros x; simpl.
  - split; [|by left]. intros y Hy. apply list_elem_of_singleton in Hy. lia.
  - destruct (IH (Nat.min x z)) as [Hle Hin]. split.
    + intros y Hy.
      assert (Hm : foldl Nat.min (Nat.min x z) l <= Nat.min x z)
        by (apply Hle; by left).
      apply elem_of_cons in Hy as [->|Hy]; [lia|].
      apply elem_of_cons in Hy as [->|Hy]; [lia|].
      apply Hle. by right.
    + apply elem_of_cons in Hin as [Hin|Hin]; [|by do 2 right].
      rewrite Hin.
      destruct (Nat.min_spec x z) as [[_ ->]|[_ ->]];
        [by left|right; by left].
Qed.

(** ** Column access of 2-d arrays *)

Lemma get_col_ok (M : ndarray) (ii : nat) :
  ii < ncols M ->
  get_col M ii = Ok ((fun r => default 0%float (r !! ii)) <$> rows M).
Proof.
  intros H. unfold get_col.
  by destruct (Nat.ltb_spec ii (ncols M)); [|lia].
Qed.

Lemma wf_zeros (r c : nat) : wf (zeros r c).
Proof.
  split; simpl; [by rewrite length_replicate|].
  apply Forall_replicate. by rewrite length_replicate.
Qed.

Lemma col_of_zip_insert_eq (c ii : nat) (rs : list (list float))
    (v : list float) :
  Forall (fun r => length r = c) rs -> ii < c -> length v = length rs ->
  (fun r => default 0%float (r !! ii))
    <$> zip_with (fun r x => <[ii:=x]> r) rs v = v.
Proof.
  intros Hrs Hii. revert v.
  induction Hrs as [|r rs Hr _ IH]; intros [|x v] Hv; simplify_eq/=; [done|].
  rewrite list_lookup_insert_eq by lia. simpl. f_equal. by apply IH.
Qed.

Lemma col_of_zip_insert_ne (ii j : nat) (rs : list (list float))
    (v : list float) :
  j <> ii -> length v = length rs ->
  (fun r => default 0%float (r !! j))
    <$> zip_with (fun r x => <[ii:=x]> r) rs v
  = (fun r => default 0%float (r !! j)) <$> rs.
Proof.
  intros Hj. revert v.
  induction rs as [|r rs IH]; intros [|x v] Hv; simplify_eq/=; [done|].
  rewrite list_lookup_insert_ne by done. f_equal. by apply IH.
Qed.

Lemma set_col_spec (M : ndarray) (ii : nat) (v : list float) :
  wf M -> ii < ncols M -> length v = nrows M ->
  exists M', set_col M ii v = Ok M' /\ wf M' /\
    nrows M' = nrows M /\ ncols M' = ncols M /\
    get_col M' ii = Ok v /\
    forall j, j <> ii -> get_col M' j = get_col M j.
Proof.
  intros [Hr Hc] Hii Hv. unfold set_col.
  destruct (Nat.leb_spec (ncols M) ii); [lia|].
  rewrite Hv, Nat.eqb_refl. eexists. split; [done|].
  repeat split; simpl.
  - rewrite length_zip_with. lia.
  - clear Hr Hv. revert v.
    induction Hc as [|r rs Hlen _ IH]; intros [|x v]; simpl;
      try by constructor.
    constructor; [by rewrite length_insert|apply IH].
  - unfold get_col. simpl. destruct (Nat.ltb_spec ii (ncols M)); [|lia].
    f_equal. apply (col_of_zip_insert_eq (ncols M)); [done|done|lia].
  - intros j Hj. unfold get_col. simpl.
    destruct (j <? ncols M); [|done].
    f_equal. apply col_of_zip_insert_ne; [done|lia].
Qed.

(** ** The temperature ladder *)

Section Ladder.
Context {K : Type} (slices_core : accessor K).

Let len (t : K) : nat := length (chain slices_core t).

Lemma get_param_full (t : K) :
  get_param slices_core t 1 = Ok (chain slices_core t).
Proof. apply slice_step_one. Qed.

Lemma chain_lengths_prefix (temps : list K) (n : nat) :
  n <= length temps ->
  for_range n
    (fun ii chain_lengths =>
       t ← index temps ii;
       c ← get_param slices_core t 1;
       Ok (chain_lengths ++ [length c]))
    [] = Ok (len <$> take n temps).
Proof.
  induction n as [|n IH]; intros Hn; [done|].
  rewrite for_range_S, IH by lia.
  destruct (lookup_lt_is_Some_2 temps n) as [t Ht]; [lia|].
  rewrite (take_S_r _ _ _ Ht), fmap_app. result_simpl.
  rewrite (index_lookup _ _ _ Ht). result_simpl.
  by rewrite get_param_full.
Qed.

Lemma chain_lengths_loop_ok (temps : list K) :
  chain_lengths_loop slices_core temps = Ok (len <$> temps).
Proof.
  unfold chain_lengths_loop.
  rewrite chain_lengths_prefix by done. by rewrite firstn_all.
Qed.

(** The loop that fills the matrix: after [n] rounds the shape is kept and
    the first [n] columns hold the trailing samples of their chains. *)
Lemma betalike_loop_prefix (temps : list K) (m n : nat) :
  (forall t, t ∈ temps -> m <= len t) ->
  n <= length temps ->
  exists B,
    for_range n
      (fun ii betalike =>
         t ← index temps ii;
         hot_chain ← get_param slices_core t 1;
         set_col betalike ii
           (slice_from hot_chain
              (Z.of_nat (length hot_chain) - Z.of_nat m)))
      (zeros m (length temps)) = Ok B /\
    wf B /\ nrows B = m /\ ncols B = length temps /\
    forall i t, i < n -> temps !! i = Some t ->
      get_col B i = Ok (drop (len t - m) (chain slices_core t)).
Proof.
  intros Hm. induction n as [|n IH]; intros Hn.
  - exists (zeros m (length temps)).
    split; [done|]. split; [apply wf_zeros|]. repeat split; intros; lia.
  - destruct IH as (B & HB & Hwf & Hr & Hc & Hcols); [lia|].
    destruct (lookup_lt_is_Some_2 temps n) as [t Ht]; [lia|].
    assert (Hmt : m <= len t) by (apply Hm; by eapply list_elem_of_lookup_2).
    destruct (set_col_spec B n (drop (len t - m) (chain slices_core t)))
      as (B' & HB' & Hwf' & Hr' & Hc' & Hnew & Hold); [done|lia| |].
    { rewrite length_drop. unfold len in *. lia. }
    exists B'. split.
    + rewrite for_range_S, HB. result_simpl.
      rewrite (index_lookup _ _ _ Ht). result_simpl.
      rewrite get_param_full. result_simpl.
      by rewrite slice_from_trailing.
    + repeat split; [apply Hwf'|apply Hwf'|lia|lia|].
      intros i t' Hi Ht'. destruct (decide (i = n)) as [->|Hne].
      * by simplify_eq.
      * rewrite Hold by done. apply Hcols; [lia|done].
Qed.

End Ladder.

(** C2. For an accessor with at least one parameter name, [make_betalike]
    returns the names in their order and a well-shaped matrix with one
    column per name and as many rows as the shortest chain has samples;
    column [i] is the trailing part, of that length, of the chain of the
    [i]-th name. *)
Theorem make_betalike_trailing {K : Type} (slices_core : accessor K) :
  params slices_core <> [] ->
  exists betalike,
    make_betalike slices_core = Ok (params slices_core, betalike) /\
    wf betalike /\
    ncols betalike = length (params slices_core) /\
    (forall t, t ∈ params slices_core ->
       nrows betalike <= length (chain slices_core t)) /\
    (exists t, t ∈ params slices_core /\
       nrows betalike = length (chain slices_core t)) /\
    forall i t, params slices_core !! i = Some t ->
      get_col betalike i
      = Ok (drop (length (chain slices_core t) - nrows betalike)
              (chain slices_core t)) /\
      length (drop (length (chain slices_core t) - nrows betalike)
                (chain slices_core t)) = nrows betalike.
Proof.
  intros Hne. unfold make_betalike.
  rewrite chain_lengths_loop_ok.
  destruct (params slices_core) as [|t0 temps] eqn:Hp; [done|].
  set (len := fun t => length (chain slices_core t)).
  cbn [fmap list_fmap mbind result_bind rbind Py.min].
  destruct (py_min_spec (len t0) (len <$> temps)) as [Hle Hin].
  set (m := foldl Nat.min (len t0) (len <$> temps)) in *.
  assert (Hm : forall t, t ∈ t0 :: temps -> m <= len t).
  { intros t Ht. apply Hle. change (len t ∈ len <$> (t0 :: temps)).
    by apply list_elem_of_fmap_2. }
  destruct (betalike_loop_prefix slices_core (t0 :: temps) m
              (length (t0 :: temps)) Hm) as (B & HB & Hwf & Hr & Hc & Hcols);
    [done|].
  exists B. unfold betalike_loop.
  change (length (len t0 :: (len <$> temps)))
    with (length (len <$> (t0 :: temps))).
  rewrite length_fmap, HB. simpl.
  split; [done|]. split; [done|]. split; [done|]. rewrite Hr.
  split; [done|]. split.
  - change (m ∈ len <$> (t0 :: temps)) in Hin.
    apply list_elem_of_fmap in Hin as (t & -> & Ht). by exists t.
  - intros i t Ht.
    assert (Hi : i < length (t0 :: temps)) by by eapply lookup_lt_Some.
    split; [by apply Hcols|].
    rewrite length_drop.
    assert (m <= len t) by (apply Hm; by eapply list_elem_of_lookup_2).
    unfold len in *. lia.
Qed.

Lemma make_betalike_trailing_witness :
  params ladder_core <> [] /\
  exists betalike,
    make_betalike ladder_core = Ok (params ladder_core, betalike) /\
    wf betalike /\
    ncols betalike = length (params ladder_core) /\
    (forall t, t ∈ params ladder_core ->
       nrows betalike <= length (chain ladder_core t)) /\
    (exists t, t ∈ params ladder_core /\
       nrows betalike = length (chain ladder_core t)) /\
    forall i t, params ladder_core !! i = Some t ->
      get_col betalike i
      = Ok (drop (length (chain ladder_core t) - nrows betalike)
              (chain ladder_core t)) /\
      length (drop (length (chain ladder_core t) - nrows betalike)
                (chain ladder_core t)) = nrows betalike.
Proof.
  split; [discriminate|].
  apply (make_betalike_trailing ladder_core). discriminate.
Defined.

(** ** Computations on the interpreter state *)

Ltac m_simpl :=
  unfold mbind, mret, M_mbind, M_mret, M_bind, M_ret, lift.

Section Choice.
Context {G : Generator}.

Lemma draw_row_spec (g : gen_state) (n m : nat) :
  0 < n ->
  length (draw_row g n m).1 = m /\
  Forall (fun i => i < n) (draw_row g n m).1.
Proof.
  intros Hn. revert g. induction m as [|m IH]; intros g; simpl; [done|].
  pose proof (integers_lt g n Hn) as Hlt.
  destruct (integers g n) as [i g1]. specialize (IH g1).
  destruct (draw_row g1 n m) as [l g2]. simpl in *.
  destruct IH as [IH1 IH2]. split; [by rewrite IH1|by constructor].
Qed.

Lemma draw_row_zero (g : gen_state) (n : nat) : draw_row g n 0 = ([], g).
Proof. done. Qed.

Lemma draw_rows_spec (g : gen_state) (n r c : nat) :
  0 < n \/ r * c = 0 ->
  length (draw_rows g n r c).1 = r /\
  Forall (fun row => length row = c /\ Forall (fun i => i < n) row)
    (draw_rows g n r c).1.
Proof.
  intros Hn. revert g. induction r as [|r IH]; intros g; simpl; [done|].
  assert (Hrow : length (draw_row g n c).1 = c /\
                 Forall (fun i => i < n) (draw_row g n c).1).
  { destruct Hn as [Hn|Hz]; [by apply draw_row_spec|].
    assert (c = 0) as -> by lia. done. }
  destruct (draw_row g n c) as [row g1]. 
  destruct IH with (g := g1) as [IH1 IH2]; [lia|].
  destruct (draw_rows g1 n r c) as [rest g2]. simpl in *.
  split; [by rewrite IH1|by constructor].
Qed.

Lemma draw_rows_total (g : gen_state) (n r c : nat) :
  0 < n \/ r * c = 0 ->
  length (concat (draw_rows g n r c).1) = r * c.
Proof.
  intros Hn. destruct (draw_rows_spec g n r c Hn) as [Hlen Hall].
  revert Hlen Hall. generalize (draw_rows g n r c).1. clear.
  intros idx <- Hall. induction Hall as [|row idx [Hrow _] _ IH]; [done|].
  simpl. rewrite length_app, IH, Hrow. done.
Qed.

(** What a successful [choice] returns and how it changes the state. *)
Record choice_post (ref : nat) (a : list float) (r c : nat)
    (w : world) (draws : ndarray) (w' : world) : Prop := mk_choice_post
  { cp_wf : wf draws;
    cp_nrows : nrows draws = r;
    cp_ncols : ncols draws = c;
    cp_values : forall row x, row ∈ rows draws -> x ∈ row -> x ∈ a;
    cp_entropy : os_entropy w' = os_entropy w;
    cp_module : module_rng w' = module_rng w;
    cp_heap_len : length (generators w') = length (generators w);
    cp_heap_other :
      forall j, j <> ref -> generators w' !! j = generators w !! j;
    cp_trace :
      exists idx, trace w' = trace w ++ (EvDraw ref (length a) <$> idx) /\
                  length idx = r * c }.

Lemma choice_spec (ref : nat) (a : list float) (r c : nat) (w : world) :
  is_Some (generators w !! ref) ->
  a <> [] \/ r * c = 0 ->
  exists draws w',
    choice ref a (r, c) w = (Ok draws, w') /\
    choice_post ref a r c w draws w'.
Proof.
  intros [g Hg] Ha. unfold choice. rewrite Hg.
  assert (Hn : 0 < length a \/ r * c = 0).
  { destruct Ha as [Ha|Ha]; [left|by right]. destruct a; [done|simpl; lia]. }
  assert ((length a =? 0) && negb (r * c =? 0) = false) as ->.
  { destruct Hn as [Hn|Hn].
    - destruct (Nat.eqb_spec (length a) 0); [lia|done].
    - rewrite Hn. simpl. apply andb_false_r. }
  pose proof (draw_rows_spec g (length a) r c Hn) as [Hlen Hall].
  pose proof (draw_rows_total g (length a) r c Hn) as Htot.
  destruct (draw_rows g (length a) r c) as [idx g']. simpl in *.
  eexists _, _. split; [done|]. constructor; simpl; try done.
  - split; simpl; [by rewrite length_fmap|].
    apply Forall_fmap. eapply Forall_impl; [exact Hall|].
    intros row [Hrow _]. simpl. by rewrite length_fmap.
  - intros row x Hrow Hx.
    apply list_elem_of_fmap in Hrow as (irow & -> & Hirow).
    apply list_elem_of_fmap in Hx as (i & -> & Hi).
    rewrite Forall_forall in Hall. destruct (Hall _ Hirow) as [_ Hlt].
    rewrite Forall_forall in Hlt. specialize (Hlt _ Hi).
    destruct (lookup_lt_is_Some_2 a i Hlt) as [y Hy].
    unfold take_at. rewrite Hy. simpl. by eapply list_elem_of_lookup_2.
  - by rewrite length_insert.
  - intros j Hj. by rewrite list_lookup_insert_ne.
  - by exists (concat idx).
Qed.

Lemma choice_empty (ref : nat) (r c : nat) (w : world) :
  is_Some (generators w !! ref) -> r * c <> 0 ->
  choice ref [] (r, c) w = (Raise ValueError, w).
Proof.
  intros [g Hg] Hrc. unfold choice. rewrite Hg. simpl.
  by destruct (Nat.eqb_spec (r * c) 0).
Qed.

End Choice.

(** ** The generic bootstrap *)

Lemma entry_elem_of (M : ndarray) (ii jj : nat) (x : float) :
  entry M ii jj = Some x ->
  exists row, row ∈ rows M /\ x ∈ row.
Proof.
  unfold entry. intros H.
  destruct (rows M !! ii) as [row|] eqn:Hrow; [|done]. simpl in H.
  exists row. split; by eapply list_elem_of_lookup_2.
Qed.

Section Bootstrap.
Context {G : Generator} {L : Numerics} {K : Type}.

Lemma bootstrap_unfold (core : accessor K) (param : K)
    (num_reals num_samples : nat) (w : world) (t : float) (tau : Z)
    (array : list float) (ref : nat) :
  integrated_time (chain core param) = Ok t ->
  Py.int t = Ok tau ->
  slice_step (chain core param) tau = Ok array ->
  module_rng w = Some ref ->
  bootstrap core param num_reals num_samples w
  = choice ref array (num_samples, num_reals) w.
Proof.
  intros Ht Htau Harr Hrng. unfold bootstrap. m_simpl.
  rewrite get_param_full. result_simpl. rewrite Ht. result_simpl.
  rewrite Htau. unfold get_param. rewrite Harr.
  unfold global_rng. by rewrite Hrng.
Qed.

End Bootstrap.

(** C4, as the code has it. When the autocorrelation time [tau] of the
    chain is estimated and is not zero, and the module-level generator
    exists, [bootstrap] returns a matrix of [num_samples] rows and
    [num_reals] columns whose entries all are samples of the chain thinned
    by [tau]; a thinned chain without samples is accepted only when no
    draw is asked for. *)
Theorem bootstrap_shape_and_values {G : Generator} {L : Numerics} {K : Type}
    (core : accessor K) (param : K) (num_reals num_samples : nat)
    (w : world) (t : float) (tau : Z) (array : list float) (ref : nat) :
  integrated_time (chain core param) = Ok t ->
  Py.int t = Ok tau ->
  slice_step (chain core param) tau = Ok array ->
  module_rng w = Some ref ->
  is_Some (generators w !! ref) ->
  array <> [] \/ num_samples * num_reals = 0 ->
  exists draws w',
    bootstrap core param num_reals num_samples w = (Ok draws, w') /\
    wf draws /\
    nrows draws = num_samples /\ ncols draws = num_reals /\
    forall ii jj x, entry draws ii jj = Some x -> x ∈ array.
Proof.
  intros Ht Htau Harr Hrng Hg Hne.
  rewrite (bootstrap_unfold _ _ _ _ _ _ _ _ _ Ht Htau Harr Hrng).
  destruct (choice_spec ref array num_samples num_reals w Hg Hne)
    as (draws & w' & Hrun & Hpost).
  exists draws, w'. split; [done|].
  destruct Hpost. repeat split; try done; try apply cp_wf0.
  intros ii jj x Hx. apply entry_elem_of in Hx as (row & Hrow & Hx).
  by eapply cp_values0.
Qed.

Lemma bootstrap_shape_and_values_witness :
  exists draws w',
    @bootstrap tape_generator tau_2_numerics _ twenty_core "x"%string 2 3
      (loaded_world [3; 25; 7; 11; 13; 2; 9] []) = (Ok draws, w') /\
    wf draws /\
    nrows draws = 3 /\ ncols draws = 2 /\
    forall ii jj x, entry draws ii jj = Some x ->
      x ∈ [0; 2; 4; 6; 8; 10; 12; 14; 16; 18]%float.
Proof.
  apply (@bootstrap_shape_and_values tape_generator tau_2_numerics _
           twenty_core "x"%string 2 3 (loaded_world [3; 25; 7; 11; 13; 2; 9] [])
           2.5%float 2%Z [0; 2; 4; 6; 8; 10; 12; 14; 16; 18]%float 0).
  - reflexivity.
  - vm_compute. reflexivity.
  - vm_compute. reflexivity.
  - reflexivity.
  - vm_compute. eexists. reflexivity.
  - left. discriminate.
Defined.

(** C4, as claimed: the shape is not [(num_reals, num_samples)]. With two
    realizations of three samples the matrix has three rows and two
    columns. *)
Lemma bootstrap_shape_transposed :
  exists draws w',
    @bootstrap tape_generator tau_2_numerics _ twenty_core "x"%string 2 3
      (loaded_world [3; 25; 7; 11; 13; 2; 9] []) = (Ok draws, w') /\
    rows draws = [[6; 10]; [14; 2]; [6; 4]]%float /\
    (nrows draws, ncols draws) = (3, 2) /\
    (nrows draws, ncols draws) <> (2, 3).
Proof.
  eexists _, _. split; [vm_compute; reflexivity|]. simpl.
  split; [reflexivity|]. split; [reflexivity|discriminate].
Qed.

(** ** The subsample size *)

Lemma of_Z_succ (z : Z) :
  (Uint63.of_Z z + 1)%uint63 = Uint63.of_Z (Z.succ z).
Proof.
  apply Uint63.to_Z_inj.
  rewrite Uint63.add_spec, !Uint63.of_Z_spec.
  change (Uint63.to_Z 1) with 1%Z.
  by rewrite Zplus_mod_idemp_l.
Qed.

Lemma tenth_ok_from_spec (fuel : nat) (z k : Z) :
  tenth_ok_from fuel (Uint63.of_Z z) = true ->
  (z <= k < z + Z.of_nat fuel)%Z ->
  tenth_ok (Uint63.of_Z k) = true.
Proof.
  revert z. induction fuel as [|fuel IH]; intros z Hrun Hk; [lia|].
  cbn [tenth_ok_from] in Hrun.
  destruct (tenth_ok (Uint63.of_Z z)) eqn:Hz; [|done].
  destruct (decide (k = z)) as [->|Hne]; [done|].
  rewrite of_Z_succ in Hrun. apply (IH (Z.succ z)); [done|lia].
Qed.

Lemma tenth_ok_checked : tenth_ok_from tenth_bound 0 = true.
Proof. vm_compute. reflexivity. Qed.

(** What the check establishes about [int]. *)
Lemma tenth_ok_int (i : PrimInt63.int) :
  tenth_ok i = true ->
  Py.int (tenth * PrimFloat.of_uint63 i)%float
  = Ok (Uint63.to_Z (i / 10)%uint63).
Proof.
  unfold tenth_ok, Py.int.
  destruct (PrimFloat.classify _); try done.
  - intros [Hsign Hk]%andb_true_iff.
    destruct (PrimFloat.ltb _ 0); [done|].
    destruct (trunc63 _) as [k|]; [|done].
    by apply Uint63.eqb_spec in Hk as ->.
  - intros Hz. by apply Uint63.eqb_spec in Hz as ->.
Qed.

(** For the lengths that were checked, [int(0.1 * len(a))] succeeds and
    is the whole part of a tenth of the length. *)
Lemma tenth_of_len_bounded {A : Type} (a : list A) :
  length a < tenth_bound ->
  tenth_of_len a = Ok (length a / 10).
Proof.
  intros Hlen.
  assert (Hbound : (Z.of_nat tenth_bound = 10000000)%Z)
    by (unfold tenth_bound; by rewrite Z2Nat.id).
  pose proof (tenth_ok_from_spec tenth_bound 0 (Z.of_nat (length a))
                tenth_ok_checked) as Hok.
  unfold tenth_of_len, float_of_nat.
  rewrite (tenth_ok_int _ (Hok ltac:(lia))). result_simpl.
  rewrite Uint63.div_spec, Uint63.of_Z_spec.
  change (Uint63.to_Z 10) with 10%Z.
  rewrite Z.mod_small by (change Uint63.wB with (2 ^ 63)%Z; lia).
  unfold as_dim.
  destruct (Z.ltb_spec (Z.of_nat (length a) / 10) 0) as [Hneg|_].
  - pose proof (Z.div_pos (Z.of_nat (length a)) 10). lia.
  - f_equal. change 10%Z with (Z.of_nat 10).
    by rewrite <- Nat2Z.inj_div, Nat2Z.id.
Qed.

Lemma tenth_of_len_nil {A : Type} : tenth_of_len (@nil A) = Ok 0.
Proof. vm_compute. reflexivity. Qed.

(** ** Thinning *)

Lemma stride_from_nil {A : Type} (k skip : nat) :
  stride_from k skip (@nil A) = [].
Proof. done. Qed.

Lemma slice_step_nil {A : Type} (step : Z) (l : list A) :
  slice_step [] step = Ok l -> l = [].
Proof.
  unfold slice_step. destruct (step =? 0)%Z; [done|].
  destruct (0 <? step)%Z; cbn; congruence.
Qed.

Lemma stride_from_subseteq {A : Type} (k skip : nat) (l : list A) (x : A) :
  x ∈ stride_from k skip l -> x ∈ l.
Proof.
  revert skip. induction l as [|y l IH]; intros skip; simpl; [done|].
  destruct skip as [|skip]; rewrite !elem_of_cons; [intros [Hx|Hx]|intros Hx];
    eauto.
Qed.

(** A thinned array only holds samples of the array it was thinned from. *)
Lemma slice_step_subseteq {A : Type} (l thinned : list A) (step : Z) (x : A) :
  slice_step l step = Ok thinned -> x ∈ thinned -> x ∈ l.
Proof.
  unfold slice_step. destruct (step =? 0)%Z; [done|].
  destruct (0 <? step)%Z; intros [= <-] Hx.
  - by eapply stride_from_subseteq.
  - apply stride_from_subseteq in Hx. by rewrite elem_of_reverse in Hx.
Qed.

(** ** One column of [ti_bootstrap] *)

Section Column.
Context {G : Generator} {L : Numerics}.

Lemma ti_bootstrap_column_run (betalike : ndarray) (num_reals rng ii : nat)
    (new_means : ndarray) (w : world) (col thinned : list float)
    (t : float) (tau : Z) :
  get_col betalike ii = Ok col ->
  integrated_time col = Ok t ->
  Py.int t = Ok tau ->
  slice_step col tau = Ok thinned ->
  length thinned < tenth_bound ->
  is_Some (generators w !! rng) ->
  exists draws w',
    choice rng col (num_reals, length thinned / 10) w = (Ok draws, w') /\
    choice_post rng col num_reals (length thinned / 10) w draws w' /\
    ti_bootstrap_column betalike num_reals rng ii new_means w
    = (set_col new_means ii (np_mean <$> rows draws), w').
Proof.
  intros Hcol Ht Htau Hthin Hlen Hg.
  destruct (choice_spec rng col num_reals (length thinned / 10) w Hg)
    as (draws & w' & Hrun & Hpost).
  { destruct col as [|x col]; [right|by left].
    apply slice_step_nil in Hthin as ->. simpl. lia. }
  exists draws, w'. split; [done|]. split; [done|].
  unfold ti_bootstrap_column. m_simpl.
  rewrite Hcol, Ht. result_simpl. rewrite Htau, Hthin.
  rewrite (tenth_of_len_bounded _ Hlen). by rewrite Hrun.
Qed.

End Column.

(** ** The draws of [odds_ratio_bootstrap] *)

Section OddsRatioRun.
Context {G : Generator} {L : Numerics}.

Lemma default_rng_fresh (w : world) :
  (default_rng w).1 = Ok (length (generators w)) /\
  is_Some (generators (default_rng w).2 !! length (generators w)).
Proof.
  unfold default_rng. destruct (seed_from_os (os_entropy w)) as [g e].
  simpl. split; [done|]. exists g.
  by rewrite lookup_app_r, Nat.sub_diag by done.
Qed.

Lemma odds_ratio_bootstrap_run (hmcore : accessor string) (num_reals : nat)
    (domains : domain * domain) (w : world) (thinned : list float)
    (t : float) (tau : Z) :
  integrated_time (chain hmcore "nmodel"%string) = Ok t ->
  Py.int t = Ok tau ->
  slice_step (chain hmcore "nmodel"%string) tau = Ok thinned ->
  length thinned < tenth_bound ->
  exists new_nmodels w',
    choice (length (generators w)) (chain hmcore "nmodel"%string)
      (num_reals, length thinned / 10) (default_rng w).2
    = (Ok new_nmodels, w') /\
    choice_post (length (generators w)) (chain hmcore "nmodel"%string)
      num_reals (length thinned / 10) (default_rng w).2 new_nmodels w' /\
    odds_ratio_bootstrap hmcore num_reals domains w
    = (ors ← for_range num_reals (odds_ratio_step new_nmodels domains)
                (zeros1 num_reals);
       Ok (np_mean ors, np_std ors), w').
Proof.
  intros Ht Htau Hthin Hlen.
  destruct (default_rng_fresh w) as [Href Hg].
  destruct (choice_spec (length (generators w)) (chain hmcore "nmodel"%string)
              num_reals (length thinned / 10) (default_rng w).2 Hg)
    as (draws & w' & Hrun & Hpost).
  { destruct (chain hmcore "nmodel"%string) as [|x col]; [right|by left].
    apply slice_step_nil in Hthin as ->. simpl. lia. }
  exists draws, w'. split; [done|]. split; [done|].
  unfold odds_ratio_bootstrap. m_simpl. rewrite get_param_full.
  destruct (default_rng w) as [r w0]. cbn [fst snd] in Href, Hrun. subst r.
  rewrite Ht. result_simpl. rewrite Htau, Hthin.
  rewrite (tenth_of_len_bounded _ Hlen), Hrun.
  rewrite (cp_nrows _ _ _ _ _ _ _ Hpost).
  by destruct (for_range _ _ _).
Qed.

End OddsRatioRun.

Ltac float_neq :=
  let H := fresh in
  intros H;
  match type of H with
  | ?a = _ => apply (f_equal (PrimFloat.eqb a)) in H
  end;
  vm_compute in H; discriminate H.

(** C5. In the loop body of [ti_bootstrap], for every column, and in
    [odds_ratio_bootstrap], the matrix of draws has [num_reals] rows and
    as many columns as a tenth (rounded down) of the length of the array
    thinned by [tau], while each of its entries is a sample of the whole
    array; the last part shows a run in which the sample that is drawn is
    not in the thinned array. The thinned arrays are those whose length
    is below [tenth_bound]. *)
Theorem subsample_size_from_thinned_pool_untrimmed :
  (forall (G : Generator) (L : Numerics) (betalike : ndarray)
      (num_reals rng ii : nat) (new_means : ndarray) (w : world)
      (col thinned : list float) (t : float) (tau : Z),
    get_col betalike ii = Ok col ->
    integrated_time col = Ok t ->
    Py.int t = Ok tau ->
    slice_step col tau = Ok thinned ->
    length thinned < tenth_bound ->
    is_Some (generators w !! rng) ->
    exists draws w',
      choice rng col (num_reals, length thinned / 10) w = (Ok draws, w') /\
      ti_bootstrap_column betalike num_reals rng ii new_means w
      = (set_col new_means ii (np_mean <$> rows draws), w') /\
      wf draws /\ nrows draws = num_reals /\
      ncols draws = length thinned / 10 /\
      forall jj kk x, entry draws jj kk = Some x -> x ∈ col) /\
  (forall (G : Generator) (L : Numerics) (hmcore : accessor string)
      (num_reals : nat) (domains : domain * domain) (w : world)
      (thinned : list float) (t : float) (tau : Z),
    integrated_time (chain hmcore "nmodel"%string) = Ok t ->
    Py.int t = Ok tau ->
    slice_step (chain hmcore "nmodel"%string) tau = Ok thinned ->
    length thinned < tenth_bound ->
    exists new_nmodels w',
      choice (length (generators w)) (chain hmcore "nmodel"%string)
        (num_reals, length thinned / 10) (default_rng w).2
      = (Ok new_nmodels, w') /\
      odds_ratio_bootstrap hmcore num_reals domains w
      = (ors ← for_range num_reals (odds_ratio_step new_nmodels domains)
                  (zeros1 num_reals);
         Ok (np_mean ors, np_std ors), w') /\
      wf new_nmodels /\ nrows new_nmodels = num_reals /\
      ncols new_nmodels = length thinned / 10 /\
      forall jj kk x, entry new_nmodels jj kk = Some x ->
        x ∈ chain hmcore "nmodel"%string) /\
  (exists (col thinned : list float) (assembled : ndarray) w',
    get_col twenty_column 0 = Ok col /\
    slice_step col 2 = Ok thinned /\
    @ti_bootstrap_assemble tape_generator tau_2_numerics twenty_column 1 1
      (loaded_world [] [[1]]) = (Ok assembled, w') /\
    rows assembled = [[1%float]] /\
    1%float ∈ col /\ 1%float ∉ thinned).
Proof.
  split; [|split].
  - intros G L betalike num_reals rng ii new_means w col thinned t tau
      Hcol Ht Htau Hthin Hlen Hg.
    destruct (ti_bootstrap_column_run betalike num_reals rng ii new_means w
                col thinned t tau Hcol Ht Htau Hthin Hlen Hg)
      as (draws & w' & Hrun & Hpost & Hstep).
    exists draws, w'. destruct Hpost.
    repeat split; try done; try apply cp_wf0.
    intros jj kk x Hx. apply entry_elem_of in Hx as (row & Hrow & Hx).
    by eapply cp_values0.
  - intros G L hmcore num_reals domains w thinned t tau Ht Htau Hthin Hlen.
    destruct (odds_ratio_bootstrap_run hmcore num_reals domains w thinned
                t tau Ht Htau Hthin Hlen)
      as (draws & w' & Hrun & Hpost & Hfun).
    exists draws, w'. destruct Hpost.
    repeat split; try done; try apply cp_wf0.
    intros jj kk x Hx. apply entry_elem_of in Hx as (row & Hrow & Hx).
    by eapply cp_values0.
  - eexists _, _, _, _.
    split; [vm_compute; reflexivity|].
    split; [vm_compute; reflexivity|].
    split; [vm_compute; reflexivity|].
    split; [reflexivity|]. split.
    + right. left.
    + rewrite !elem_of_cons, elem_of_nil.
      intros Hx. repeat destruct Hx as [Hx|Hx]; try done; revert Hx;
        float_neq.
Qed.

Lemma subsample_size_from_thinned_pool_untrimmed_witness :
  (exists draws w',
     @choice tape_generator 0 hundreds_column
       (2, length hundreds_thinned / 10) (loaded_world [3; 5] [])
     = (Ok draws, w') /\
     @ti_bootstrap_column tape_generator tau_2_numerics two_columns 2 0 1
       (zeros 2 2) (loaded_world [3; 5] [])
     = (set_col (zeros 2 2) 1 (@np_mean tau_2_numerics <$> rows draws),
        w') /\
     wf draws /\ nrows draws = 2 /\
     ncols draws = length hundreds_thinned / 10 /\
     forall jj kk x, entry draws jj kk = Some x -> x ∈ hundreds_column) /\
  (exists new_nmodels w',
     @choice tape_generator 1 (chain two_model_core "nmodel"%string)
       (3, length two_model_thinned / 10)
       (@default_rng tape_generator (loaded_world [] [[1; 6; 2]])).2
     = (Ok new_nmodels, w') /\
     @odds_ratio_bootstrap tape_generator tau_2_numerics two_model_core 3
       default_domains (loaded_world [] [[1; 6; 2]])
     = (ors ← for_range 3 (odds_ratio_step new_nmodels default_domains)
                 (zeros1 3);
        Ok (@np_mean tau_2_numerics ors, @np_std tau_2_numerics ors), w') /\
     wf new_nmodels /\ nrows new_nmodels = 3 /\
     ncols new_nmodels = length two_model_thinned / 10 /\
     forall jj kk x, entry new_nmodels jj kk = Some x ->
       x ∈ chain two_model_core "nmodel"%string).
Proof.
  split.
  - apply (proj1 subsample_size_from_thinned_pool_untrimmed
             tape_generator tau_2_numerics two_columns 2 0 1 (zeros 2 2)
             (loaded_world [3; 5] []) hundreds_column hundreds_thinned
             2.5%float 2%Z).
    + vm_compute. reflexivity.
    + reflexivity.
    + vm_compute. reflexivity.
    + vm_compute. reflexivity.
    + unfold tenth_bound. simpl. lia.
    + vm_compute. eexists. reflexivity.
  - apply (proj1 (proj2 subsample_size_from_thinned_pool_untrimmed)
             tape_generator tau_2_numerics two_model_core 3 default_domains
             (loaded_world [] [[1; 6; 2]]) two_model_thinned 2.5%float 2%Z).
    + reflexivity.
    + vm_compute. reflexivity.
    + vm_compute. reflexivity.
    + unfold tenth_bound. simpl. lia.
Defined.

(** ** The assembled matrix and its reversal *)

Lemma set_col_shape (M M' : ndarray) (ii : nat) (v : list float) :
  set_col M ii v = Ok M' -> wf M ->
  wf M' /\ nrows M' = nrows M /\ ncols M' = ncols M.
Proof.
  unfold set_col. intros Hset [Hr Hc].
  destruct (ncols M <=? ii); [done|].
  destruct (Nat.eqb_spec (length v) (nrows M)) as [Hv|Hv].
  - injection Hset as <-. repeat split; simpl.
    + rewrite length_zip_with. lia.
    + clear Hr Hv. revert v.
      induction Hc as [|r rs Hlen _ IH]; intros [|x v]; simpl;
        try by constructor.
      constructor; [by rewrite length_insert|apply IH].
  - destruct v as [|x [|y v]]; try done. injection Hset as <-.
    repeat split; simpl; [by rewrite length_fmap|].
    apply Forall_fmap. eapply Forall_impl; [exact Hc|].
    intros r Hlen. simpl. by rewrite length_insert.
Qed.

Lemma wf_flip (M : ndarray) : wf M -> wf (flip M).
Proof.
  intros [Hr Hc]. split; simpl.
  - by rewrite length_reverse, length_fmap.
  - apply Forall_reverse, Forall_fmap. eapply Forall_impl; [exact Hc|].
    intros r Hlen. simpl. by rewrite length_reverse.
Qed.

(** [np.flip] without an axis mirrors the row index and the column index. *)
Lemma entry_flip (M : ndarray) (r j : nat) :
  wf M -> r < nrows M -> j < ncols M ->
  entry (flip M) r j = entry M (nrows M - 1 - r) (ncols M - 1 - j) /\
  is_Some (entry (flip M) r j).
Proof.
  intros [Hr Hc] Hlt Hj. unfold entry. simpl.
  rewrite reverse_lookup by (rewrite length_fmap; lia).
  rewrite length_fmap, Hr, list_lookup_fmap.
  replace (nrows M - S r) with (nrows M - 1 - r) by lia.
  destruct (lookup_lt_is_Some_2 (rows M) (nrows M - 1 - r)) as [row Hrow];
    [lia|].
  rewrite Hrow. simpl.
  assert (Hlen : length row = ncols M).
  { rewrite Forall_forall in Hc. apply Hc. by eapply list_elem_of_lookup_2. }
  rewrite reverse_lookup by lia. rewrite Hlen.
  replace (ncols M - S j) with (ncols M - 1 - j) by lia.
  split; [done|]. apply lookup_lt_is_Some_2. lia.
Qed.

Section Assemble.
Context {G : Generator} {L : Numerics}.

Lemma for_rangeM_S {S : Type} (n : nat) (body : nat -> S -> M S) (init : S) :
  for_rangeM (Datatypes.S n) body init
  = M_bind (for_rangeM n body init) (body n).
Proof. unfold for_rangeM. by rewrite seq_S, foldl_app. Qed.

(** A property of the accumulator that every round keeps holds when the
    loop ends normally. *)
Lemma for_rangeM_invariant {S : Type} (I : S -> Prop) (n : nat)
    (body : nat -> S -> M S) (init : S) (w : world) :
  I init ->
  (forall ii s w0 s' w1, I s -> body ii s w0 = (Ok s', w1) -> I s') ->
  forall s' w', for_rangeM n body init w = (Ok s', w') -> I s'.
Proof.
  intros Hinit Hstep. induction n as [|n IH]; intros s' w' Hrun.
  - by injection Hrun as <- _.
  - rewrite for_rangeM_S in Hrun. unfold M_bind in Hrun.
    destruct (for_rangeM n body init w) as [[s|e] w0]; [|done].
    eapply Hstep; [by eapply IH|done].
Qed.

Lemma ti_bootstrap_column_shape (betalike : ndarray) (num_reals rng ii : nat)
    (new_means M' : ndarray) (w w' : world) :
  ti_bootstrap_column betalike num_reals rng ii new_means w = (Ok M', w') ->
  wf new_means ->
  wf M' /\ nrows M' = nrows new_means /\ ncols M' = ncols new_means.
Proof.
  unfold ti_bootstrap_column. m_simpl. intros Hrun Hwf.
  destruct (get_col betalike ii) as [col|]; [|done].
  destruct (result_bind _ _ _ (integrated_time col)) as [tau|]; [|done].
  destruct (slice_step col tau) as [trimmed|]; [|done].
  destruct (tenth_of_len trimmed) as [num_samples|]; [|done].
  destruct (choice rng col (num_reals, num_samples) w) as [[draws|] w1];
    [|done].
  destruct (set_col new_means ii _) as [M1|] eqn:Hset; [|done].
  injection Hrun as <- _. by eapply set_col_shape.
Qed.

Lemma ti_bootstrap_assemble_shape (betalike : ndarray)
    (num_chains num_reals : nat) (w w' : world) (assembled : ndarray) :
  ti_bootstrap_assemble betalike num_chains num_reals w
  = (Ok assembled, w') ->
  wf assembled /\ nrows assembled = num_reals /\
  ncols assembled = num_chains.
Proof.
  unfold ti_bootstrap_assemble. m_simpl.
  destruct (default_rng w) as [[rng|] w0]; [|done].
  apply (for_rangeM_invariant
           (fun M => wf M /\ nrows M = num_reals /\ ncols M = num_chains)).
  - split; [apply wf_zeros|done].
  - intros ii s w1 s' w2 (Hwf & Hr & Hc) Hstep.
    apply ti_bootstrap_column_shape in Hstep as (Hwf' & Hr' & Hc'); [|done].
    split; [done|]. split; congruence.
Qed.

End Assemble.

(** C3, as the code has it. Whenever the loop of [ti_bootstrap] assembles a
    matrix, [ti_bootstrap] returns a [num_reals] by [num_chains] matrix
    whose entry at row [r] and column [j] is the assembled entry at row
    [num_reals - 1 - r] and column [num_chains - 1 - j]: the order of the
    columns is reversed, and so is the order of the rows. *)
Theorem ti_bootstrap_flips_both_axes {G : Generator} {L : Numerics}
    (betalike : ndarray) (num_chains num_reals : nat) (w w' : world)
    (assembled : ndarray) :
  ti_bootstrap_assemble betalike num_chains num_reals w
  = (Ok assembled, w') ->
  exists new_means,
    ti_bootstrap betalike num_chains num_reals w = (Ok new_means, w') /\
    wf new_means /\
    nrows new_means = num_reals /\ ncols new_means = num_chains /\
    forall r j, r < num_reals -> j < num_chains ->
      entry new_means r j
      = entry assembled (num_reals - 1 - r) (num_chains - 1 - j) /\
      is_Some (entry new_means r j).
Proof.
  intros Hrun.
  destruct (ti_bootstrap_assemble_shape _ _ _ _ _ _ Hrun) as (Hwf & Hr & Hc).
  exists (flip assembled). split.
  - unfold ti_bootstrap. m_simpl. by rewrite Hrun.
  - split; [by apply wf_flip|]. split; [done|]. split; [done|].
    intros r j Hlt Hj. rewrite <- Hr, <- Hc. apply entry_flip; [done|lia|lia].
Qed.

Lemma ti_bootstrap_flips_both_axes_witness :
  exists new_means,
    @ti_bootstrap tape_generator tau_2_numerics two_columns 2 2
      (loaded_world [] [[3; 5; 7; 9]])
    = (Ok new_means,
       (@ti_bootstrap_assemble tape_generator tau_2_numerics two_columns 2 2
          (loaded_world [] [[3; 5; 7; 9]])).2) /\
    wf new_means /\
    nrows new_means = 2 /\ ncols new_means = 2 /\
    forall r j, r < 2 -> j < 2 ->
      entry new_means r j
      = entry (mk_ndarray 2 2 [[3; 107]; [5; 109]]%float)
          (2 - 1 - r) (2 - 1 - j) /\
      is_Some (entry new_means r j).
Proof.
  apply (@ti_bootstrap_flips_both_axes tape_generator tau_2_numerics
           two_columns 2 2 (loaded_world [] [[3; 5; 7; 9]])).
  vm_compute. reflexivity.
Defined.

(** C3, as claimed: the result is not the assembled matrix with its
    columns alone reversed. For two realizations of two columns the loop
    assembles [[3, 107], [5, 109]] and [ti_bootstrap] returns
    [[109, 5], [107, 3]], while the reversal of the columns alone is
    [[107, 3], [109, 5]]. *)
Lemma ti_bootstrap_not_columns_only :
  exists assembled new_means w',
    @ti_bootstrap_assemble tape_generator tau_2_numerics two_columns 2 2
      (loaded_world [] [[3; 5; 7; 9]]) = (Ok assembled, w') /\
    @ti_bootstrap tape_generator tau_2_numerics two_columns 2 2
      (loaded_world [] [[3; 5; 7; 9]]) = (Ok new_means, w') /\
    rows assembled = [[3; 107]; [5; 109]]%float /\
    rows new_means = [[109; 5]; [107; 3]]%float /\
    rows (flip_columns assembled) = [[107; 3]; [109; 5]]%float /\
    new_means <> flip_columns assembled.
Proof.
  eexists _, _, _.
  split; [vm_compute; reflexivity|].
  split; [vm_compute; reflexivity|].
  split; [reflexivity|]. split; [reflexivity|]. split; [reflexivity|].
  intros H. apply (f_equal (fun M => default 0%float (entry M 0 0))) in H.
  vm_compute in H. revert H. float_neq.
Qed.

(** ** Which generator a run draws from *)

Section FrameFacts.
Context {G : Generator} {L : Numerics}.

Lemma draws_only_refl (ref : nat) (w : world) : draws_only ref w w.
Proof.
  split; [|done]. exists []. split; [by rewrite app_nil_r|constructor].
Qed.

Lemma draws_only_trans (ref : nat) (w1 w2 w3 : world) :
  draws_only ref w1 w2 -> draws_only ref w2 w3 -> draws_only ref w1 w3.
Proof.
  intros ((e1 & Ht1 & He1) & Hl1 & Hg1 & Ho1 & Hm1)
         ((e2 & Ht2 & He2) & Hl2 & Hg2 & Ho2 & Hm2).
  split; [|repeat split; try congruence].
  - exists (e1 ++ e2). split; [by rewrite Ht2, Ht1, app_assoc|].
    by apply Forall_app.
  - intros j Hj. by rewrite Hg2, Hg1.
Qed.

Lemma run_keeps_lift {A : Type} (P : world -> world -> Prop) (r : result A) :
  (forall w, P w w) -> run_keeps P (lift r).
Proof. intros Hrefl w. apply Hrefl. Qed.

Lemma run_keeps_ret {A : Type} (P : world -> world -> Prop) (a : A) :
  (forall w, P w w) -> run_keeps P (M_ret a).
Proof. intros Hrefl w. apply Hrefl. Qed.

Lemma run_keeps_bind {A B : Type} (P : world -> world -> Prop)
    (c : M A) (k : A -> M B) :
  (forall w1 w2 w3, P w1 w2 -> P w2 w3 -> P w1 w3) ->
  run_keeps P c -> (forall a, run_keeps P (k a)) ->
  run_keeps P (M_bind c k).
Proof.
  intros Htrans Hc Hk w. unfold M_bind. specialize (Hc w).
  destruct (c w) as [[a|e] w1]; [|done].
  eapply Htrans; [exact Hc|apply Hk].
Qed.

Lemma run_keeps_for_rangeM {S : Type} (P : world -> world -> Prop)
    (n : nat) (body : nat -> S -> M S) (init : S) :
  (forall w, P w w) ->
  (forall w1 w2 w3, P w1 w2 -> P w2 w3 -> P w1 w3) ->
  (forall ii s, run_keeps P (body ii s)) ->
  run_keeps P (for_rangeM n body init).
Proof.
  intros Hrefl Htrans Hbody. induction n as [|n IH].
  - by apply run_keeps_ret.
  - rewrite for_rangeM_S. apply run_keeps_bind; [done|done|].
    intros s. apply Hbody.
Qed.

Lemma run_keeps_choice (ref : nat) (a : list float) (shape : nat * nat) :
  run_keeps (draws_only ref) (choice ref a shape).
Proof.
  intros w. unfold choice. destruct shape as [r c].
  destruct (generators w !! ref) as [g|]; [|apply draws_only_refl].
  destruct ((length a =? 0) && negb (r * c =? 0)); [apply draws_only_refl|].
  destruct (draw_rows g (length a) r c) as [idx g']. simpl.
  split; [|repeat split; simpl; try done].
  - simpl. eexists. split; [done|]. apply Forall_fmap, Forall_true.
    intros i. simpl. by eexists _, _.
  - by rewrite length_insert.
  - intros j Hj. by rewrite list_lookup_insert_ne.
Qed.

Lemma run_keeps_ti_bootstrap_column (betalike : ndarray)
    (num_reals rng ii : nat) (new_means : ndarray) :
  run_keeps (draws_only rng)
    (ti_bootstrap_column betalike num_reals rng ii new_means).
Proof.
  unfold ti_bootstrap_column, mbind, M_mbind.
  repeat (apply run_keeps_bind;
          [apply draws_only_trans| |intros ?]);
    try (apply run_keeps_lift, draws_only_refl).
  apply run_keeps_choice.
Qed.

(** After [default_rng], events that are draws on the new object alone
    amount to [fresh_generator_draws_only] for the whole run. *)
Lemma fresh_then_draws (w w' : world) :
  draws_only (length (generators w)) (default_rng w).2 w' ->
  fresh_generator_draws_only w w'.
Proof.
  unfold default_rng. destruct (seed_from_os (os_entropy w)) as [g e].
  simpl. intros ((evs & Ht & Hev) & Hl & Hg & Ho & Hm). simpl in *.
  split; [|repeat split].
  - exists evs. split; [|done]. by rewrite Ht, <- app_assoc.
  - rewrite Hl, length_app. simpl. lia.
  - intros j Hj. rewrite Hg by lia. by apply lookup_app_l.
  - done.
Qed.

Lemma ti_bootstrap_fresh (betalike : ndarray) (num_chains num_reals : nat) :
  run_keeps fresh_generator_draws_only
    (ti_bootstrap betalike num_chains num_reals).
Proof.
  intros w. apply fresh_then_draws.
  unfold ti_bootstrap, ti_bootstrap_assemble. m_simpl.
  destruct (default_rng_fresh w) as [Href _].
  destruct (default_rng w) as [r w0]. cbn [fst snd] in *. subst r.
  pose proof (run_keeps_for_rangeM (draws_only (length (generators w)))
                num_chains
                (ti_bootstrap_column betalike num_reals
                   (length (generators w)))
                (zeros num_reals num_chains)
                (draws_only_refl _) (draws_only_trans _)
                (run_keeps_ti_bootstrap_column _ _ _) w0) as Hloop.
  by destruct (for_rangeM _ _ _ w0) as [[A|e] w1].
Qed.

Lemma odds_ratio_bootstrap_fresh (hmcore : accessor string)
    (num_reals : nat) (domains : domain * domain) :
  run_keeps fresh_generator_draws_only
    (odds_ratio_bootstrap hmcore num_reals domains).
Proof.
  intros w. apply fresh_then_draws.
  unfold odds_ratio_bootstrap. m_simpl. rewrite get_param_full.
  destruct (default_rng_fresh w) as [Href _].
  destruct (default_rng w) as [r w0]. cbn [fst snd] in *. subst r.
  destruct (result_bind _ _ _ (integrated_time _)) as [tau|];
    [|apply draws_only_refl].
  destruct (slice_step _ tau) as [thinned|]; [|apply draws_only_refl].
  destruct (tenth_of_len thinned) as [num_samples|]; [|apply draws_only_refl].
  pose proof (run_keeps_choice (length (generators w))
                (chain hmcore "nmodel"%string) (num_reals, num_samples) w0)
    as Hdraw.
  destruct (choice _ _ _ w0) as [[draws|e] w1]; [|done].
  by destruct (for_range _ _ _).
Qed.

Lemma bootstrap_module_level {K : Type} (core : accessor K) (param : K)
    (num_reals num_samples : nat) :
  run_keeps module_level_draws_only
    (bootstrap core param num_reals num_samples).
Proof.
  assert (Hrefl : forall w, module_level_draws_only w w).
  { intros w. split; [|done]. exists []. by rewrite app_nil_r. }
  intros w. unfold bootstrap. m_simpl.
  destruct (result_bind _ _ _ (get_param core param 1)) as [tau|];
    [|apply Hrefl].
  destruct (get_param core param tau) as [array|]; [|apply Hrefl].
  unfold global_rng.
  destruct (module_rng w) as [ref|] eqn:Hrng; [|apply Hrefl].
  destruct (run_keeps_choice ref array (num_samples, num_reals) w)
    as ((evs & Ht & Hev) & Hl & _ & Ho & Hm).
  split; [|done]. exists evs. split; [done|].
  eapply Forall_impl; [exact Hev|].
  intros e (high & idx & ->). by eexists _, _, _.
Qed.

End FrameFacts.

(** C6, as the code has it. [bootstrap] only draws from the generator bound
    to the module-level name [rng] and makes no generator. [ti_bootstrap]
    and [odds_ratio_bootstrap] each begin by making a generator of their
    own, draw from that one alone, and leave every generator that existed
    before, the module-level one among them, in the state it had. *)
Theorem generators_used_by_each_component (G : Generator) (L : Numerics) :
  (forall (K : Type) (core : accessor K) (param : K)
      (num_reals num_samples : nat) (w : world),
    module_level_draws_only w
      (bootstrap core param num_reals num_samples w).2) /\
  (forall (betalike : ndarray) (num_chains num_reals : nat) (w : world),
    fresh_generator_draws_only w
      (ti_bootstrap betalike num_chains num_reals w).2) /\
  (forall (hmcore : accessor string) (num_reals : nat)
      (domains : domain * domain) (w : world),
    fresh_generator_draws_only w
      (odds_ratio_bootstrap hmcore num_reals domains w).2).
Proof.
  split; [|split].
  - intros K core param num_reals num_samples. apply bootstrap_module_level.
  - intros betalike num_chains num_reals. apply ti_bootstrap_fresh.
  - intros hmcore num_reals domains. apply odds_ratio_bootstrap_fresh.
Qed.

(** C6, as claimed: a run of [ti_bootstrap] after the import of the module
    makes the generator 1 and takes its four draws from it; the
    module-level generator 0 keeps its state, so the run is not one that
    only draws from the module-level generator. *)
Lemma ti_bootstrap_uses_own_generator :
  let w := loaded_world [10; 11] [[3; 5; 7; 9]] in
  let w' := (@ti_bootstrap tape_generator tau_2_numerics two_columns 2 2
               w).2 in
  module_rng w = Some 0 /\
  trace w = [EvNew 0] /\
  trace w' = [EvNew 0; EvNew 1; EvDraw 1 20 3; EvDraw 1 20 5;
              EvDraw 1 20 7; EvDraw 1 20 9] /\
  generators w' !! 0 = generators w !! 0 /\
  ~ module_level_draws_only w w'.
Proof.
  cbv zeta. split; [reflexivity|]. split; [reflexivity|].
  split; [vm_compute; reflexivity|]. split; [vm_compute; reflexivity|].
  intros (_ & Hlen & _). vm_compute in Hlen. discriminate Hlen.
Qed.

(** ** Counting the samples of a domain *)

Lemma where_from_spec (start : nat) (mask : list bool) (i : nat) :
  i ∈ where_from start mask <->
  start <= i /\ mask !! (i - start) = Some true.
Proof.
  revert start. induction mask as [|b mask IH]; intros start; simpl.
  - rewrite elem_of_nil. split; [done|]. by intros [_ ?].
  - assert (Htail : i ∈ where_from (S start) mask <->
                    S start <= i /\ (b :: mask) !! (i - start) = Some true).
    { rewrite IH. split; intros [Hle Hlook]; (split; [lia|]).
      - replace (i - start) with (S (i - S start)) by lia. done.
      - replace (i - start) with (S (i - S start)) in Hlook by lia. done. }
    destruct b.
    + rewrite elem_of_cons, Htail. split.
      * intros [->|[Hle Hlook]]; [|split; [lia|done]].
        split; [lia|]. by rewrite Nat.sub_diag.
      * intros [Hle Hlook]. destruct (decide (i = start)) as [|Hne];
          [by left|right]. split; [lia|done].
    + rewrite Htail. split; intros [Hle Hlook]; (split; [|done]); [lia|].
      destruct (decide (i = start)) as [->|Hne]; [|lia].
      by rewrite Nat.sub_diag in Hlook.
Qed.

Lemma where_from_length (start : nat) (mask : list bool) :
  length (where_from start mask) = length (List.filter (fun b => b) mask).
Proof.
  revert start. induction mask as [|b mask IH]; intros start; [done|].
  simpl. destruct b; simpl; by rewrite IH.
Qed.

Lemma domain_mask_lookup (row : list float) (d : domain) (i : nat) :
  mask_and (mask_gt row d.1) (mask_le row d.2) !! i
  = (fun s => PrimFloat.ltb d.1 s && PrimFloat.leb s d.2) <$> row !! i.
Proof.
  unfold mask_and, mask_gt, mask_le.
  rewrite lookup_zip_with, !list_lookup_fmap.
  by destruct (row !! i).
Qed.

Lemma domain_mask_count (f g : float -> bool) (row : list float) :
  length (List.filter (fun b => b) (zip_with andb (f <$> row) (g <$> row)))
  = length (List.filter (fun s => f s && g s) row).
Proof.
  induction row as [|s row IH]; [done|].
  cbn [fmap list_fmap zip_with List.filter]. fold (fmap f row) (fmap g row).
  destruct (f s && g s); cbn [length]; by rewrite IH.
Qed.

(** C10. The positions that [odds_ratio_bootstrap] counts for a domain are
    those of the samples [s] with [d[0] < s <= d[1]], so that the count is
    the number of such samples; with the default domains a sample equal to
    their common bound 0.5 is counted for the first domain and not for the
    second. *)
Theorem domain_open_below_closed_above (row : list float) (d : domain) :
  (forall i,
     i ∈ np_where (mask_and (mask_gt row d.1) (mask_le row d.2)) <->
     exists s, row !! i = Some s /\
       PrimFloat.ltb d.1 s = true /\ PrimFloat.leb s d.2 = true) /\
  domain_count row d
  = length (List.filter
              (fun s => PrimFloat.ltb d.1 s && PrimFloat.leb s d.2) row) /\
  domain_count [0.5%float] default_domains.1 = 1 /\
  domain_count [0.5%float] default_domains.2 = 0 /\
  domain_count [(-0.5)%float] default_domains.1 = 0 /\
  domain_count [1.5%float] default_domains.2 = 1.
Proof.
  split; [|split].
  - intros i. unfold np_where.
    rewrite where_from_spec, Nat.sub_0_r, domain_mask_lookup.
    split.
    + intros [_ Hlook]. destruct (row !! i) as [s|]; [|done].
      injection Hlook as Hs. apply andb_true_iff in Hs. by exists s.
    + intros (s & -> & Hlo & Hhi). split; [lia|]. simpl.
      by rewrite Hlo, Hhi.
  - unfold domain_count, np_where.
    rewrite where_from_length. apply domain_mask_count.
  - vm_compute. done.
Qed.

(** ** Loops that raise *)

Lemma for_range_raised {S : Type} (n : nat) (body : nat -> S -> result S)
    (init : S) (e : exn) :
  for_range n body init = Raise e ->
  for_range (Datatypes.S n) body init = Raise e.
Proof. intros H. by rewrite for_range_S, H. Qed.

(** If every round either keeps the invariant or raises [e], and some
    round raises [e] whenever it is reached, the loop raises [e]. *)
Lemma for_range_raises {S : Type} (I : S -> Prop) (n : nat)
    (body : nat -> S -> result S) (init : S) (e : exn) (ii : nat) :
  I init ->
  (forall jj s, jj < n -> I s ->
     (exists s', body jj s = Ok s' /\ I s') \/ body jj s = Raise e) ->
  ii < n ->
  (forall s, I s -> body ii s = Raise e) ->
  for_range n body init = Raise e.
Proof.
  intros Hinit Hstep Hii Hfail.
  assert (Hprefix : forall m, m <= n ->
            (exists s, for_range m body init = Ok s /\ I s) \/
            for_range m body init = Raise e).
  { induction m as [|m IH]; intros Hm; [left; by exists init|].
    rewrite for_range_S. destruct IH as [(s & -> & Hs)| ->]; [lia| |by right].
    simpl. apply Hstep; [lia|done]. }
  assert (Hat : for_range (Datatypes.S ii) body init = Raise e).
  { rewrite for_range_S. destruct (Hprefix ii) as [(s & -> & Hs)| ->];
      [lia| |done]. simpl. by apply Hfail. }
  clear Hprefix. induction n as [|n IH]; [lia|].
  destruct (decide (ii = n)) as [->|Hne]; [done|].
  apply for_range_raised, IH; [|lia].
  intros jj s Hjj. apply Hstep. lia.
Qed.

(** ** The odds ratio of a realization without sample in the second
    domain *)

Section OddsRatioRaise.
Context {G : Generator} {L : Numerics}.

Lemma choice_ok_post (ref : nat) (a : list float) (r c : nat)
    (w w' : world) (draws : ndarray) :
  choice ref a (r, c) w = (Ok draws, w') ->
  choice_post ref a r c w draws w'.
Proof.
  intros Hrun.
  assert (Hg : is_Some (generators w !! ref)).
  { unfold choice in Hrun. by destruct (generators w !! ref). }
  assert (Ha : a <> [] \/ r * c = 0).
  { destruct a as [|x a]; [|by left]. right.
    destruct (decide (r * c = 0)) as [|Hne]; [done|].
    by rewrite (choice_empty ref r c w Hg Hne) in Hrun. }
  destruct (choice_spec ref a r c w Hg Ha) as (d & w1 & Hrun' & Hpost).
  rewrite Hrun in Hrun'. by injection Hrun' as <- <-.
Qed.

Lemma odds_ratio_bootstrap_unfold (hmcore : accessor string)
    (num_reals : nat) (domains : domain * domain) (w : world)
    (thinned : list float) (t : float) (tau : Z) (num_samples : nat) :
  integrated_time (chain hmcore "nmodel"%string) = Ok t ->
  Py.int t = Ok tau ->
  slice_step (chain hmcore "nmodel"%string) tau = Ok thinned ->
  tenth_of_len thinned = Ok num_samples ->
  odds_ratio_bootstrap hmcore num_reals domains w
  = match choice (length (generators w)) (chain hmcore "nmodel"%string)
            (num_reals, num_samples) (default_rng w).2 with
    | (Ok new_nmodels, w') =>
        (ors ← for_range num_reals (odds_ratio_step new_nmodels domains)
                  (zeros1 (nrows new_nmodels));
         Ok (np_mean ors, np_std ors), w')
    | (Raise e, w') => (Raise e, w')
    end.
Proof.
  intros Ht Htau Hthin Hnum.
  unfold odds_ratio_bootstrap. m_simpl. rewrite get_param_full.
  destruct (default_rng_fresh w) as [Href _].
  destruct (default_rng w) as [r w0]. cbn [fst snd] in Href |- *. subst r.
  rewrite Ht. result_simpl. rewrite Htau, Hthin, Hnum.
  destruct (choice _ _ _ w0) as [[draws|e] w1]; [|done].
  by destruct (for_range _ _ _).
Qed.

End OddsRatioRaise.

(** C7, as the code has it. When the draws of [odds_ratio_bootstrap] have
    a realization none of whose samples lies in the second domain, the
    division of the two counts raises [ZeroDivisionError]: the function
    ends with that exception and returns no mean and no standard
    deviation. *)
Theorem odds_ratio_zero_denominator_raises {G : Generator} {L : Numerics}
    (hmcore : accessor string) (num_reals : nat)
    (domains : domain * domain) (w w' : world) (thinned : list float)
    (t : float) (tau : Z) (num_samples : nat) (new_nmodels : ndarray)
    (ii : nat) (row : list float) :
  integrated_time (chain hmcore "nmodel"%string) = Ok t ->
  Py.int t = Ok tau ->
  slice_step (chain hmcore "nmodel"%string) tau = Ok thinned ->
  tenth_of_len thinned = Ok num_samples ->
  choice (length (generators w)) (chain hmcore "nmodel"%string)
    (num_reals, num_samples) (default_rng w).2 = (Ok new_nmodels, w') ->
  rows new_nmodels !! ii = Some row ->
  domain_count row domains.2 = 0 ->
  odds_ratio_bootstrap hmcore num_reals domains w
  = (Raise ZeroDivisionError, w').
Proof.
  intros Ht Htau Hthin Hnum Hdraw Hrow Hzero.
  rewrite (odds_ratio_bootstrap_unfold _ _ _ _ _ _ _ _ Ht Htau Hthin Hnum).
  rewrite Hdraw.
  destruct (choice_ok_post _ _ _ _ _ _ _ Hdraw) as [[Hr Hc] Hnr _ _ _ _ _ _ _].
  assert (Hii : ii < num_reals).
  { rewrite <- Hnr, <- Hr. by eapply lookup_lt_Some. }
  rewrite (for_range_raises (fun ors => length ors = num_reals) num_reals
             _ _ ZeroDivisionError ii); [done| | |done|].
  - unfold zeros1. by rewrite length_replicate, Hnr.
  - intros jj ors Hjj Hors. unfold odds_ratio_step, get_row.
    destruct (Nat.ltb_spec jj (nrows new_nmodels)); [|lia].
    destruct (lookup_lt_is_Some_2 (rows new_nmodels) jj) as [r Hrj]; [lia|].
    rewrite (index_lookup _ _ _ Hrj). result_simpl.
    unfold truediv. destruct (domain_count r domains.2 =? 0); [by right|].
    result_simpl. unfold set_item.
    destruct (Nat.ltb_spec jj (length ors)); [|lia].
    left. eexists. split; [done|]. by rewrite length_insert.
  - intros ors Hors. unfold odds_ratio_step, get_row.
    destruct (Nat.ltb_spec ii (nrows new_nmodels)); [|lia].
    rewrite (index_lookup _ _ _ Hrow). result_simpl.
    unfold truediv. by rewrite Hzero.
Qed.

Lemma odds_ratio_zero_denominator_raises_witness :
  exists w',
    @odds_ratio_bootstrap tape_generator tau_2_numerics one_model_core 2
      default_domains (loaded_world [] [[0; 1; 2; 3]])
    = (Raise ZeroDivisionError, w').
Proof.
  eexists.
  apply (@odds_ratio_zero_denominator_raises tape_generator tau_2_numerics
           one_model_core 2 default_domains (loaded_world [] [[0; 1; 2; 3]])
           _ [0; 0; 0; 0; 0; 0; 0; 0; 0; 0]%float 2.5%float 2%Z 1
           (mk_ndarray 2 1 [[0]; [0.25]]%float) 1 [0.25%float]).
  - reflexivity.
  - vm_compute. reflexivity.
  - vm_compute. reflexivity.
  - vm_compute. reflexivity.
  - vm_compute. reflexivity.
  - reflexivity.
  - vm_compute. reflexivity.
Defined.

(** C7, as claimed: no infinite or undefined ratio reaches a returned mean
    and standard deviation. Each of the two realizations drawn here has
    one sample in the first domain and none in the second; the run ends
    with [ZeroDivisionError] and returns no pair. *)
Lemma odds_ratio_zero_denominator_not_propagated :
  let run := @odds_ratio_bootstrap tape_generator tau_2_numerics
               one_model_core 2 default_domains
               (loaded_world [] [[0; 1; 2; 3]]) in
  domain_count [0%float] default_domains.1 = 1 /\
  domain_count [0%float] default_domains.2 = 0 /\
  run.1 = Raise ZeroDivisionError /\
  ~ exists mean std, run.1 = Ok (mean, std).
Proof.
  cbv zeta. split; [vm_compute; reflexivity|].
  split; [vm_compute; reflexivity|].
  assert (Hrun : (@odds_ratio_bootstrap tape_generator tau_2_numerics
                    one_model_core 2 default_domains
                    (loaded_world [] [[0; 1; 2; 3]])).1
                 = Raise ZeroDivisionError) by (vm_compute; reflexivity).
  split; [exact Hrun|]. intros (mean & std & H). rewrite Hrun in H.
  discriminate H.
Qed.

(** ** The loop over the realizations *)

Section ResultMap.
Context {A B : Type}.

Lemma result_map_app (f : A -> result B) (l1 l2 : list A) :
  result_map f (l1 ++ l2)
  = (b1 ← result_map f l1; b2 ← result_map f l2; Ok (b1 ++ b2)).
Proof.
  induction l1 as [|a l1 IH]; simpl.
  - result_simpl. by destruct (result_map f l2).
  - result_simpl. destruct (f a) as [b|e]; [|done]. result_simpl.
    rewrite IH. result_simpl.
    destruct (result_map f l1) as [b1|e]; [|done]. result_simpl.
    by destruct (result_map f l2).
Qed.

Lemma result_map_length (f : A -> result B) (l : list A) (bs : list B) :
  result_map f l = Ok bs -> length bs = length l.
Proof.
  revert bs. induction l as [|a l IH]; intros bs; simpl.
  - by intros [= <-].
  - result_simpl. destruct (f a) as [b|e]; [|done]. result_simpl.
    destruct (result_map f l) as [bs'|e]; [|done]. result_simpl.
    intros [= <-]. simpl. by rewrite (IH bs').
Qed.

Lemma result_map_ext_in (f g : A -> result B) (l : list A) :
  (forall a, a ∈ l -> f a = g a) -> result_map f l = result_map g l.
Proof.
  induction l as [|a l IH]; intros Hfg; [done|]. simpl.
  rewrite (Hfg a) by by left. rewrite IH; [done|].
  intros a' Ha'. apply Hfg. by right.
Qed.

End ResultMap.

(** Reading a list by its positions is reading it element by element. *)
Lemma result_map_index {A B : Type} (f : A -> result B) (l : list A) :
  result_map (fun ii => a ← index l ii; f a) (seq 0 (length l))
  = result_map f l.
Proof.
  induction l as [|a l IH] using rev_ind; [done|].
  rewrite length_app. cbn [length]. rewrite Nat.add_1_r, seq_S.
  rewrite !result_map_app. cbn [result_map plus].
  rewrite (result_map_ext_in _ (fun ii => a0 ← index l ii; f a0)).
  - rewrite IH. result_simpl. unfold index at 1.
    rewrite lookup_app_r, Nat.sub_diag by done. done.
  - intros ii Hii. apply elem_of_seq in Hii. unfold index.
    by rewrite lookup_app_l by lia.
Qed.

(** Filling an array of the right length position by position gives the
    list of the values, and the first exception ends the loop. *)
Lemma for_range_fill (g : nat -> result float) (n : nat)
    (init : list float) :
  length init = n ->
  for_range n (fun ii acc => v ← g ii; set_item acc ii v) init
  = result_map g (seq 0 n).
Proof.
  intros Hinit.
  assert (Hprefix : forall k, k <= n ->
            for_range k (fun ii acc => v ← g ii; set_item acc ii v) init
            = (vs ← result_map g (seq 0 k); Ok (vs ++ drop k init))).
  { induction k as [|k IH]; intros Hk.
    - simpl. result_simpl. by rewrite drop_0.
    - rewrite for_range_S, IH by lia.
      rewrite seq_S, result_map_app. simpl. result_simpl.
      destruct (result_map g (seq 0 k)) as [vs|e] eqn:Hvs; [|done].
      result_simpl. destruct (g k) as [v|e]; [|done]. result_simpl.
      apply result_map_length in Hvs. rewrite length_seq in Hvs.
      unfold set_item. rewrite length_app, length_drop, Hvs.
      destruct (Nat.ltb_spec k (k + (length init - k))); [|lia].
      f_equal. rewrite insert_app_r_alt by lia. rewrite Hvs, Nat.sub_diag.
      rewrite <- app_assoc. f_equal.
      destruct (drop k init) as [|x rest] eqn:Hdrop.
      + apply (f_equal length) in Hdrop. rewrite length_drop in Hdrop.
        simpl in Hdrop. lia.
      + simpl. f_equal.
        change rest with (drop 1 (x :: rest)).
        by rewrite <- Hdrop, drop_drop, Nat.add_comm. }
  rewrite Hprefix by done. result_simpl.
  destruct (result_map g (seq 0 n)) as [vs|e]; [|done]. result_simpl.
  by rewrite drop_ge, app_nil_r by lia.
Qed.

(** ** The evidence estimate *)

Section Evidence.
Context {G : Generator} {L : Numerics} {Q : Quadrature}.



End Evidence.


(** ** Bayes factors *)

Section BayesFactor.
Context {M : MathLib} {U : Uncertainties}.



(** When the difference of the two nominal values is finite and at least
    710, the exponential overflows before [scale] is looked at. *)
Lemma log10_bf_terms_overflow (log_ev1 log_ev2 : float * float) :
  PrimFloat.leb 710 (log_ev2.1 - log_ev1.1) = true ->
  PrimFloat.ltb (log_ev2.1 - log_ev1.1) infinity = true ->
  (exists e, log10_bf_terms log_ev1 log_ev2 = Raise e) /\
  forall u1 u2 d,
    ufloat log_ev1 = Ok u1 -> ufloat log_ev2 = Ok u2 -> usub u2 u1 = Ok d ->
    log10_bf_terms log_ev1 log_ev2 = Raise OverflowError.
Proof.
  intros Hge Hfin.
  assert (Hover : forall u1 u2 d,
            ufloat log_ev1 = Ok u1 -> ufloat log_ev2 = Ok u2 ->
            usub u2 u1 = Ok d ->
            log10_bf_terms log_ev1 log_ev2 = Raise OverflowError).
  { intros u1 u2 d H1 H2 Hd. unfold log10_bf_terms. result_simpl.
    rewrite H1. result_simpl. rewrite H2. result_simpl.
    rewrite Hd. result_simpl.
    rewrite (umath_exp_raise d OverflowError); [done|].
    apply math_exp_overflow;
      by rewrite (usub_nominal _ _ _ Hd), (ufloat_nominal _ _ H1),
        (ufloat_nominal _ _ H2). }
  split; [|done].
  destruct (ufloat log_ev1) as [u1|e] eqn:H1;
    [|exists e; unfold log10_bf_terms; by rewrite H1].
  destruct (ufloat log_ev2) as [u2|e] eqn:H2;
    [|exists e; unfold log10_bf_terms; result_simpl; rewrite H1;
      result_simpl; by rewrite H2].
  destruct (usub u2 u1) as [d|e] eqn:Hd;
    [|exists e; unfold log10_bf_terms; result_simpl; rewrite H1;
      result_simpl; rewrite H2; result_simpl; by rewrite Hd].
  exists OverflowError. by eapply Hover.
Qed.

End BayesFactor.




(** C9, as the code has it. For every two inputs and every scale other
    than ['log'], ['1'] and ['log10'], [log10_bf] never falls back on one
    of the three scales: it returns [None] when the terms computed before
    the test of [scale] exist, and raises the exception of the first of
    them that fails otherwise. *)
Theorem log10_bf_other_scale_none_or_raise {M : MathLib} {U : Uncertainties}
    (log_ev1 log_ev2 : float * float) (scale : string) :
  scale <> "log"%string -> scale <> "1"%string -> scale <> "log10"%string ->
  log10_bf log_ev1 log_ev2 scale
  = (_ ← log10_bf_terms log_ev1 log_ev2; Ok None) /\
  forall p, log10_bf log_ev1 log_ev2 scale <> Ok (Some p).
Proof.
  intros Hlog Hone Hlog10.
  assert (Heq : log10_bf log_ev1 log_ev2 scale
                = (_ ← log10_bf_terms log_ev1 log_ev2; Ok None)).
  { unfold log10_bf. result_simpl.
    destruct (log10_bf_terms log_ev1 log_ev2) as [[[log_bf bf] l10]|];
      [|done]. result_simpl.
    destruct (String.eqb_spec scale "log"); [done|].
    destruct (String.eqb_spec scale "1"); [done|].
    by destruct (String.eqb_spec scale "log10"). }
  split; [exact Heq|]. intros p. rewrite Heq. result_simpl.
  by destruct (log10_bf_terms log_ev1 log_ev2).
Qed.

Lemma log10_bf_other_scale_none_or_raise_witness :
  @log10_bf sample_math sample_uncertainties (-100, 0.5)%float
    (-98, 0.5)%float "ln"
  = (_ ← @log10_bf_terms sample_math sample_uncertainties
           (-100, 0.5)%float (-98, 0.5)%float; Ok None) /\
  forall p,
    @log10_bf sample_math sample_uncertainties (-100, 0.5)%float
      (-98, 0.5)%float "ln" <> Ok (Some p).
Proof.
  apply (@log10_bf_other_scale_none_or_raise sample_math
           sample_uncertainties (-100, 0.5)%float (-98, 0.5)%float "ln");
    discriminate.
Defined.

(** C9, as claimed: on a scale that is none of the three the call does
    not return [None] for every input. With the nominal values 0 and 1000
    the exponential overflows before [scale] is looked at and the call
    raises [OverflowError]; with the nominal values -100 and -98 it
    returns [None]. *)
Lemma log10_bf_other_scale_raises :
  @log10_bf sample_math sample_uncertainties (0, 0.5)%float (1000, 0.5)%float
    "ln" = Raise OverflowError /\
  @log10_bf sample_math sample_uncertainties (0, 0.5)%float (1000, 0.5)%float
    "ln" <> Ok None /\
  @log10_bf sample_math sample_uncertainties (-100, 0.5)%float
    (-98, 0.5)%float "ln" = Ok None.
Proof.
  assert (Hrun : @log10_bf sample_math sample_uncertainties
                   (0, 0.5)%float (1000, 0.5)%float "ln"
                 = Raise OverflowError) by (vm_compute; reflexivity).
  split; [exact Hrun|]. split; [by rewrite Hrun|].
  vm_compute. reflexivity.
Qed.

(** * Further properties *)

(** ** The ladder: edge cases and alignment *)

Lemma entry_of_get_col (M : ndarray) (ii k : nat) (col : list float) :
  wf M -> get_col M ii = Ok col -> k < nrows M ->
  entry M k ii = col !! k /\ is_Some (col !! k).
Proof.
  intros [Hr Hc] Hcol Hk. unfold get_col in Hcol.
  destruct (Nat.ltb_spec ii (ncols M)) as [Hii|]; [|done].
  injection Hcol as <-. unfold entry. rewrite list_lookup_fmap.
  destruct (lookup_lt_is_Some_2 (rows M) k) as [r Hrow]; [lia|].
  rewrite Hrow. simpl.
  assert (Hlen : length r = ncols M).
  { rewrite Forall_forall in Hc. apply Hc. by eapply list_elem_of_lookup_2. }
  destruct (lookup_lt_is_Some_2 r ii) as [x Hx]; [lia|].
  rewrite Hx. by split; [|eexists].
Qed.

(** What [make_betalike] returns for at least one parameter name, in the
    form used below. *)
Lemma make_betalike_columns {K : Type} (slices_core : accessor K) :
  params slices_core <> [] ->
  exists betalike,
    make_betalike slices_core = Ok (params slices_core, betalike) /\
    wf betalike /\
    ncols betalike = length (params slices_core) /\
    (forall t, t ∈ params slices_core ->
       nrows betalike <= length (chain slices_core t)) /\
    forall i t, params slices_core !! i = Some t ->
      get_col betalike i
      = Ok (drop (length (chain slices_core t) - nrows betalike)
              (chain slices_core t)).
Proof.
  intros Hne. unfold make_betalike. rewrite chain_lengths_loop_ok.
  destruct (params slices_core) as [|t0 temps] eqn:Hp; [done|].
  set (len := fun t => length (chain slices_core t)).
  cbn [fmap list_fmap mbind result_bind rbind Py.min].
  destruct (py_min_spec (len t0) (len <$> temps)) as [Hle _].
  set (m := foldl Nat.min (len t0) (len <$> temps)) in *.
  assert (Hm : forall t, t ∈ t0 :: temps -> m <= len t).
  { intros t Ht. apply Hle. change (len t ∈ len <$> (t0 :: temps)).
    by apply list_elem_of_fmap_2. }
  destruct (betalike_loop_prefix slices_core (t0 :: temps) m
              (length (t0 :: temps)) Hm) as (B & HB & Hwf & Hr & Hc & Hcols);
    [done|].
  exists B. unfold betalike_loop.
  change (length (len t0 :: (len <$> temps)))
    with (length (len <$> (t0 :: temps))).
  rewrite length_fmap, HB. simpl.
  split; [done|]. split; [done|]. split; [done|]. rewrite Hr.
  split; [done|]. intros i t Ht. apply Hcols; [|done].
  by eapply lookup_lt_Some.
Qed.

(** X1. Without any parameter name there is no shortest chain:
    [make_betalike] raises [ValueError]. *)
Theorem make_betalike_no_params {K : Type} (slices_core : accessor K) :
  params slices_core = [] ->
  make_betalike slices_core = Raise ValueError.
Proof.
  intros Hp. unfold make_betalike. rewrite chain_lengths_loop_ok, Hp. done.
Qed.

Lemma make_betalike_no_params_witness :
  make_betalike (mk_accessor (@nil float) ladder_chain) = Raise ValueError.
Proof.
  apply (make_betalike_no_params (mk_accessor (@nil float) ladder_chain)).
  reflexivity.
Defined.

(** X2. The rows of the matrix of [make_betalike] are aligned on the ends
    of the chains: the entry at row [k] and column [i] is the sample of the
    [i]-th chain that lies [nrows - k] places before its end, so that the
    last row holds the last sample of every chain. *)
Theorem make_betalike_rows_aligned_on_ends {K : Type}
    (slices_core : accessor K) (betalike : ndarray) (temps : list K)
    (i k : nat) (t : K) :
  make_betalike slices_core = Ok (temps, betalike) ->
  params slices_core !! i = Some t ->
  k < nrows betalike ->
  entry betalike k i
  = chain slices_core t !! (length (chain slices_core t) - nrows betalike + k)
  /\ is_Some (entry betalike k i).
Proof.
  intros Hrun Ht Hk.
  assert (Hne : params slices_core <> []) by (by intros Hnil; rewrite Hnil in Ht).
  destruct (make_betalike_columns slices_core Hne)
    as (B & HB & Hwf & Hc & Hle & Hcols).
  rewrite HB in Hrun. injection Hrun as _ <-.
  destruct (entry_of_get_col B i k _ Hwf (Hcols i t Ht) Hk) as [-> Hsome].
  split; [|done]. by rewrite lookup_drop.
Qed.

Lemma make_betalike_rows_aligned_on_ends_witness :
  entry (mk_ndarray 3 3 [[3; 10; 8]; [4; 20; 9]; [5; 30; 6]]%float) 2 0
  = chain ladder_core 4%float
      !! (length (chain ladder_core 4%float) - 3 + 2) /\
  is_Some (entry (mk_ndarray 3 3 [[3; 10; 8]; [4; 20; 9]; [5; 30; 6]]%float)
             2 0).
Proof.
  apply (make_betalike_rows_aligned_on_ends ladder_core
           (mk_ndarray 3 3 [[3; 10; 8]; [4; 20; 9]; [5; 30; 6]]%float)
           [4; 2; 1]%float 0 2 4%float).
  - vm_compute. reflexivity.
  - reflexivity.
  - simpl. lia.
Defined.

(** ** The size of a thinned array *)

Lemma stride_from_length {A : Type} (k skip : nat) (l : list A) :
  skip < k ->
  length (stride_from k skip l) = (length l + k - 1 - skip) / k.
Proof.
  intros Hskip. revert skip Hskip.
  induction l as [|x l IH]; intros skip Hskip; cbn [stride_from length].
  - symmetry. apply Nat.div_small. lia.
  - destruct skip as [|s]; cbn [length].
    + rewrite IH by lia.
      replace (S (length l) + k - 1 - 0) with (length l + 1 * k) by lia.
      rewrite Nat.div_add by lia.
      replace (length l + k - 1 - (k - 1)) with (length l) by lia. lia.
    + rewrite IH by lia. f_equal. lia.
Qed.

Lemma slice_step_length {A : Type} (l thinned : list A) (step : Z) :
  slice_step l step = Ok thinned ->
  step <> 0%Z /\
  length thinned = (length l + Z.abs_nat step - 1) / Z.abs_nat step.
Proof.
  unfold slice_step.
  destruct (Z.eqb_spec step 0); [done|].
  destruct (Z.ltb_spec 0 step); intros [= <-]; (split; [done|]);
    rewrite stride_from_length by lia; rewrite ?length_reverse;
    rewrite Nat.sub_0_r; f_equal; lia.
Qed.

Lemma slice_step_nonzero {A : Type} (l : list A) (step : Z) :
  step <> 0%Z -> exists thinned, slice_step l step = Ok thinned.
Proof.
  intros Hstep. unfold slice_step.
  destruct (Z.eqb_spec step 0); [done|].
  destruct (0 <? step)%Z; by eexists.
Qed.

(** X3. In the loop body of [ti_bootstrap], a column of [n] samples with
    an autocorrelation time that truncates to [tau], not zero, is resampled
    in [num_reals] realizations of [ceil(n / |tau|) // 10] samples each
    (thinned lengths below [tenth_bound]). *)
Theorem ti_bootstrap_column_subsample_size {G : Generator} {L : Numerics}
    (betalike : ndarray) (num_reals rng ii : nat) (new_means : ndarray)
    (w : world) (col : list float) (t : float) (tau : Z) :
  get_col betalike ii = Ok col ->
  integrated_time col = Ok t ->
  Py.int t = Ok tau ->
  tau <> 0%Z ->
  (length col + Z.abs_nat tau - 1) / Z.abs_nat tau < tenth_bound ->
  is_Some (generators w !! rng) ->
  exists draws w',
    ti_bootstrap_column betalike num_reals rng ii new_means w
    = (set_col new_means ii (np_mean <$> rows draws), w') /\
    wf draws /\ nrows draws = num_reals /\
    ncols draws = (length col + Z.abs_nat tau - 1) / Z.abs_nat tau / 10.
Proof.
  intros Hcol Ht Htau Hnz Hlen Hg.
  destruct (slice_step_nonzero col tau Hnz) as [thinned Hthin].
  destruct (slice_step_length _ _ _ Hthin) as [_ Hsize].
  rewrite <- Hsize in Hlen |- *.
  destruct (ti_bootstrap_column_run betalike num_reals rng ii new_means w
              col thinned t tau Hcol Ht Htau Hthin Hlen Hg)
    as (draws & w' & _ & Hpost & Hstep).
  exists draws, w'. destruct Hpost. by repeat split; try apply cp_wf0.
Qed.

Lemma ti_bootstrap_column_subsample_size_witness :
  exists draws w',
    @ti_bootstrap_column tape_generator tau_2_numerics two_columns 3 0 1
      (zeros 3 2) (loaded_world [3; 5; 8] [])
    = (set_col (zeros 3 2) 1 (@np_mean tau_2_numerics <$> rows draws), w') /\
    wf draws /\ nrows draws = 3 /\
    ncols draws
    = (length hundreds_column + Z.abs_nat 2 - 1) / Z.abs_nat 2 / 10.
Proof.
  apply (@ti_bootstrap_column_subsample_size tape_generator tau_2_numerics
           two_columns 3 0 1 (zeros 3 2) (loaded_world [3; 5; 8] [])
           hundreds_column 2.5%float 2%Z).
  - vm_compute. reflexivity.
  - reflexivity.
  - vm_compute. reflexivity.
  - discriminate.
  - unfold tenth_bound. simpl. lia.
  - vm_compute. eexists. reflexivity.
Defined.

(** ** The generic bootstrap: failures and draws *)

Section BootstrapMore.
Context {G : Generator} {L : Numerics} {K : Type}.

Lemma choice_raise_unchanged (ref : nat) (a : list float) (shape : nat * nat)
    (w w' : world) (e : exn) :
  choice ref a shape w = (Raise e, w') -> w' = w.
Proof.
  unfold choice. destruct shape as [r c].
  destruct (generators w !! ref) as [g|]; [|by intros [= _ <-]].
  destruct ((length a =? 0) && negb (r * c =? 0)); [by intros [= _ <-]|].
  by destruct (draw_rows g (length a) r c).
Qed.

End BootstrapMore.

(** X4. A call of [bootstrap] that raises has taken no draw: it leaves the
    generators, the module-level one among them, and the rest of the
    interpreter state exactly as they were. *)
Theorem bootstrap_raise_leaves_state {G : Generator} {L : Numerics}
    {K : Type} (core : accessor K) (param : K) (num_reals num_samples : nat)
    (w w' : world) (e : exn) :
  bootstrap core param num_reals num_samples w = (Raise e, w') -> w' = w.
Proof.
  unfold bootstrap. m_simpl.
  destruct (result_bind _ _ _ (get_param core param 1)) as [tau|];
    [|by intros [= _ <-]].
  destruct (get_param core param tau) as [array|]; [|by intros [= _ <-]].
  unfold global_rng. destruct (module_rng w) as [ref|]; [|by intros [= _ <-]].
  apply choice_raise_unchanged.
Qed.

Lemma bootstrap_raise_leaves_state_witness :
  (loaded_world [3; 25; 7] []) = loaded_world [3; 25; 7] [].
Proof.
  apply (@bootstrap_raise_leaves_state tape_generator
           (fixed_tau_numerics (Some 0.5%float)) _ twenty_core "x"%string
           2 3 (loaded_world [3; 25; 7] []) (loaded_world [3; 25; 7] [])
           ValueError).
  vm_compute. reflexivity.
Defined.

(** X5. On a parameter whose chain is empty, [bootstrap] asked for at least
    one draw never returns a matrix: whatever the estimator answers, the
    call raises and the interpreter state is unchanged. *)
Theorem bootstrap_empty_chain_raises {G : Generator} {L : Numerics}
    {K : Type} (core : accessor K) (param : K) (num_reals num_samples : nat)
    (w : world) :
  chain core param = [] ->
  num_samples * num_reals <> 0 ->
  exists e, bootstrap core param num_reals num_samples w = (Raise e, w).
Proof.
  intros Hnil Hdraws. unfold bootstrap. m_simpl.
  rewrite get_param_full, Hnil. result_simpl.
  destruct (integrated_time []) as [t|e]; [|by exists e]. result_simpl.
  destruct (Py.int t) as [tau|e]; [|by exists e].
  destruct (get_param core param tau) as [array|e] eqn:Harr; [|by exists e].
  unfold get_param in Harr. rewrite Hnil in Harr.
  apply slice_step_nil in Harr as ->.
  unfold global_rng. destruct (module_rng w) as [ref|]; [|by eexists].
  unfold choice. destruct (generators w !! ref); [|by eexists].
  simpl. destruct (Nat.eqb_spec (num_samples * num_reals) 0); [done|].
  by eexists.
Qed.

Lemma bootstrap_empty_chain_raises_witness :
  exists e,
    @bootstrap tape_generator tau_2_numerics _
      (mk_accessor ["x"%string] (fun _ => [])) "x"%string 2 3
      (loaded_world [3; 25; 7] [])
    = (Raise e, loaded_world [3; 25; 7] []).
Proof.
  apply (@bootstrap_empty_chain_raises tape_generator tau_2_numerics _
           (mk_accessor ["x"%string] (fun _ => [])) "x"%string 2 3
           (loaded_world [3; 25; 7] [])).
  - reflexivity.
  - discriminate.
Defined.

(** X6. A call of [bootstrap] that succeeds takes exactly
    [num_samples * num_reals] draws, all from the module-level generator
    and all with the length of the thinned chain as their bound. *)
Theorem bootstrap_draw_count {G : Generator} {L : Numerics} {K : Type}
    (core : accessor K) (param : K) (num_reals num_samples : nat)
    (w w' : world) (draws : ndarray) (t : float) (tau : Z)
    (array : list float) (ref : nat) :
  integrated_time (chain core param) = Ok t ->
  Py.int t = Ok tau ->
  slice_step (chain core param) tau = Ok array ->
  module_rng w = Some ref ->
  bootstrap core param num_reals num_samples w = (Ok draws, w') ->
  exists idx,
    trace w' = trace w ++ (EvDraw ref (length array) <$> idx) /\
    length idx = num_samples * num_reals.
Proof.
  intros Ht Htau Harr Hrng Hrun.
  rewrite (bootstrap_unfold _ _ _ _ _ _ _ _ _ Ht Htau Harr Hrng) in Hrun.
  apply choice_ok_post in Hrun. by destruct Hrun.
Qed.

Lemma bootstrap_draw_count_witness :
  exists idx,
    trace (@bootstrap tape_generator tau_2_numerics _ twenty_core
             "x"%string 2 3 (loaded_world [3; 25; 7; 11; 13; 2; 9] [])).2
    = trace (loaded_world [3; 25; 7; 11; 13; 2; 9] [])
      ++ (EvDraw 0 (length [0; 2; 4; 6; 8; 10; 12; 14; 16; 18]%float)
            <$> idx) /\
    length idx = 3 * 2.
Proof.
  apply (@bootstrap_draw_count tape_generator tau_2_numerics _ twenty_core
           "x"%string 2 3 (loaded_world [3; 25; 7; 11; 13; 2; 9] []) _
           (mk_ndarray 3 2 [[6; 10]; [14; 2]; [6; 4]]%float)
           2.5%float 2%Z [0; 2; 4; 6; 8; 10; 12; 14; 16; 18]%float 0).
  - reflexivity.
  - vm_compute. reflexivity.
  - vm_compute. reflexivity.
  - reflexivity.
  - vm_compute. reflexivity.
Defined.

(** ** [ti_bootstrap]: columns that cannot be resampled *)

Section StuckLoops.
Context {G : Generator}.

(** A loop one of whose rounds raises whenever it is reached raises. *)
Lemma for_rangeM_stuck {S : Type} (n : nat) (body : nat -> S -> M S)
    (init : S) (w : world) (ii : nat) :
  ii < n ->
  (forall s w0, exists e w1, body ii s w0 = (Raise e, w1)) ->
  exists e w', for_rangeM n body init w = (Raise e, w').
Proof.
  intros Hii Hbad. induction n as [|n IH]; [lia|].
  rewrite for_rangeM_S. unfold M_bind.
  destruct (decide (ii = n)) as [->|Hne].
  - destruct (for_rangeM n body init w) as [[s|e] w0]; [|by eexists _, _].
    apply Hbad.
  - destruct IH as (e & w' & ->); [lia|]. by eexists _, _.
Qed.

(** A loop whose first round raises ends there. *)
Lemma for_rangeM_first {S : Type} (n : nat) (body : nat -> S -> M S)
    (init : S) (w w' : world) (e : exn) :
  0 < n -> body 0 init w = (Raise e, w') ->
  for_rangeM n body init w = (Raise e, w').
Proof.
  intros Hn Hfirst. induction n as [|n IH]; [lia|].
  rewrite for_rangeM_S. unfold M_bind.
  destruct n as [|n].
  - change (for_rangeM 0 body init w) with (Ok init, w). cbn beta iota.
    by rewrite Hfirst.
  - by rewrite IH by lia.
Qed.

Lemma concat_replicate_nil {A : Type} (r : nat) :
  concat (replicate r (@nil A)) = [].
Proof. induction r as [|r IH]; [done|]. by simpl. Qed.

Lemma draw_rows_no_samples (g : gen_state) (n r : nat) :
  draw_rows g n r 0 = (replicate r [], g).
Proof. induction r as [|r IH]; [done|]. simpl. by rewrite IH. Qed.

(** Realizations without samples take no draw and leave the state. *)
Lemma choice_no_samples (ref : nat) (a : list float) (r : nat) (w : world) :
  is_Some (generators w !! ref) ->
  choice ref a (r, 0) w = (Ok (mk_ndarray r 0 (replicate r [])), w).
Proof.
  intros [g Hg]. unfold choice. rewrite Hg, Nat.mul_0_r. simpl.
  rewrite andb_false_r, draw_rows_no_samples.
  rewrite fmap_replicate, concat_replicate_nil. simpl.
  rewrite app_nil_r, (list_insert_id _ _ _ Hg). by destruct w.
Qed.

End StuckLoops.

Section BadColumns.
Context {G : Generator} {L : Numerics}.

Lemma ti_bootstrap_column_zero_tau (betalike : ndarray)
    (num_reals rng ii : nat) (new_means : ndarray) (w : world)
    (col : list float) (t : float) :
  get_col betalike ii = Ok col ->
  integrated_time col = Ok t ->
  Py.int t = Ok 0%Z ->
  ti_bootstrap_column betalike num_reals rng ii new_means w
  = (Raise ValueError, w).
Proof.
  intros Hcol Ht Htau. unfold ti_bootstrap_column. m_simpl.
  rewrite Hcol, Ht. result_simpl. by rewrite Htau.
Qed.

Lemma ti_bootstrap_column_out_of_range (betalike : ndarray)
    (num_reals rng ii : nat) (new_means : ndarray) (w : world) :
  ncols betalike <= ii ->
  ti_bootstrap_column betalike num_reals rng ii new_means w
  = (Raise IndexError, w).
Proof.
  intros Hii. unfold ti_bootstrap_column, get_col. m_simpl.
  by destruct (Nat.ltb_spec ii (ncols betalike)); [lia|].
Qed.

Lemma ti_bootstrap_raises_from_loop (betalike : ndarray)
    (num_chains num_reals : nat) (w : world) :
  (exists e w',
     for_rangeM num_chains
       (ti_bootstrap_column betalike num_reals (length (generators w)))
       (zeros num_reals num_chains) (default_rng w).2 = (Raise e, w')) ->
  exists e w', ti_bootstrap betalike num_chains num_reals w = (Raise e, w').
Proof.
  intros (e & w' & Hloop).
  unfold ti_bootstrap, ti_bootstrap_assemble. m_simpl.
  destruct (default_rng_fresh w) as [Href _].
  destruct (default_rng w) as [r w0]. cbn [fst snd] in *. subst r.
  rewrite Hloop. by eexists _, _.
Qed.

End BadColumns.

(** X7. When the autocorrelation time of some column asked for truncates
    to zero, [ti_bootstrap] returns no matrix: it raises. When that column
    is the first one, the exception is the [ValueError] of the slice with
    step zero, raised after the generator was made and before any draw. *)
Theorem ti_bootstrap_zero_tau_raises {G : Generator} {L : Numerics}
    (betalike : ndarray) (num_chains num_reals : nat) (w : world)
    (ii : nat) (col : list float) (t : float) :
  ii < num_chains ->
  get_col betalike ii = Ok col ->
  integrated_time col = Ok t ->
  Py.int t = Ok 0%Z ->
  (exists e w', ti_bootstrap betalike num_chains num_reals w = (Raise e, w'))
  /\ (ii = 0 ->
      ti_bootstrap betalike num_chains num_reals w
      = (Raise ValueError, (default_rng w).2)).
Proof.
  intros Hii Hcol Ht Htau. split.
  - apply ti_bootstrap_raises_from_loop.
    apply (for_rangeM_stuck _ _ _ _ ii Hii).
    intros s w0. eexists _, _.
    by apply (ti_bootstrap_column_zero_tau _ _ _ _ _ _ col t).
  - intros ->. unfold ti_bootstrap, ti_bootstrap_assemble. m_simpl.
    destruct (default_rng_fresh w) as [Href _].
    destruct (default_rng w) as [r w0]. cbn [fst snd] in *. subst r.
    by rewrite (for_rangeM_first _ _ _ w0 w0 ValueError Hii
                  (ti_bootstrap_column_zero_tau _ _ _ _ _ _ col t
                     Hcol Ht Htau)).
Qed.

Lemma ti_bootstrap_zero_tau_raises_witness :
  (exists e w',
     @ti_bootstrap tape_generator (fixed_tau_numerics (Some 0.5%float))
       two_columns 2 3 (loaded_world [] [[3; 5]]) = (Raise e, w')) /\
  (0 = 0 ->
   @ti_bootstrap tape_generator (fixed_tau_numerics (Some 0.5%float))
     two_columns 2 3 (loaded_world [] [[3; 5]])
   = (Raise ValueError,
      (@default_rng tape_generator (loaded_world [] [[3; 5]])).2)).
Proof.
  apply (@ti_bootstrap_zero_tau_raises tape_generator
           (fixed_tau_numerics (Some 0.5%float)) two_columns 2 3
           (loaded_world [] [[3; 5]]) 0
           ((fun n => float_of_nat n) <$> seq 0 20) 0.5%float).
  - lia.
  - vm_compute. reflexivity.
  - reflexivity.
  - vm_compute. reflexivity.
Defined.

(** X8. Asked for more chains than the matrix has columns, [ti_bootstrap]
    returns no matrix: the first column that is missing raises
    [IndexError] unless an earlier column has raised before. *)
Theorem ti_bootstrap_too_many_chains {G : Generator} {L : Numerics}
    (betalike : ndarray) (num_chains num_reals : nat) (w : world) :
  ncols betalike < num_chains ->
  exists e w', ti_bootstrap betalike num_chains num_reals w = (Raise e, w').
Proof.
  intros Hcols. apply ti_bootstrap_raises_from_loop.
  apply (for_rangeM_stuck _ _ _ _ (ncols betalike) Hcols).
  intros s w0. eexists _, _.
  by apply ti_bootstrap_column_out_of_range.
Qed.

Lemma ti_bootstrap_too_many_chains_witness :
  exists e w',
    @ti_bootstrap tape_generator tau_2_numerics two_columns 3 2
      (loaded_world [] [[3; 5; 7; 9]]) = (Raise e, w').
Proof.
  apply (@ti_bootstrap_too_many_chains tape_generator tau_2_numerics
           two_columns 3 2 (loaded_world [] [[3; 5; 7; 9]])).
  simpl. lia.
Defined.

(** X9. In the loop body of [ti_bootstrap], a column whose thinned array
    has fewer than ten samples gives realizations without any sample: no
    draw is taken, the state is left as it was, and every entry written to
    the column is the mean of an empty array. *)
Theorem ti_bootstrap_column_short_chain {G : Generator} {L : Numerics}
    (betalike : ndarray) (num_reals rng ii : nat) (new_means : ndarray)
    (w : world) (col thinned : list float) (t : float) (tau : Z) :
  get_col betalike ii = Ok col ->
  integrated_time col = Ok t ->
  Py.int t = Ok tau ->
  slice_step col tau = Ok thinned ->
  length thinned < 10 ->
  is_Some (generators w !! rng) ->
  ti_bootstrap_column betalike num_reals rng ii new_means w
  = (set_col new_means ii (replicate num_reals (np_mean [])), w).
Proof.
  intros Hcol Ht Htau Hthin Hshort Hg.
  assert (Hlen : length thinned < tenth_bound) by (unfold tenth_bound; lia).
  unfold ti_bootstrap_column. m_simpl.
  rewrite Hcol, Ht. result_simpl. rewrite Htau, Hthin.
  rewrite (tenth_of_len_bounded _ Hlen), (Nat.div_small _ 10 Hshort).
  rewrite (choice_no_samples _ _ _ _ Hg). simpl.
  by rewrite fmap_replicate.
Qed.

Lemma ti_bootstrap_column_short_chain_witness :
  @ti_bootstrap_column tape_generator tau_2_numerics
    (mk_ndarray 4 2 [[1; 10]; [2; 20]; [3; 30]; [4; 40]]%float) 3 0 1
    (zeros 3 2) (loaded_world [3; 5] [])
  = (set_col (zeros 3 2) 1 (replicate 3 (@np_mean tau_2_numerics [])),
     loaded_world [3; 5] []).
Proof.
  apply (@ti_bootstrap_column_short_chain tape_generator tau_2_numerics
           (mk_ndarray 4 2 [[1; 10]; [2; 20]; [3; 30]; [4; 40]]%float) 3 0 1
           (zeros 3 2) (loaded_world [3; 5] [])
           [10; 20; 30; 40]%float [10; 30]%float 2.5%float 2%Z).
  - vm_compute. reflexivity.
  - reflexivity.
  - vm_compute. reflexivity.
  - vm_compute. reflexivity.
  - simpl. lia.
  - vm_compute. eexists. reflexivity.
Defined.

(** ** [odds_ratio_bootstrap]: the ratios of the realizations *)

Lemma result_map_all_ok {A B : Type} (f : A -> result B) (h : A -> B)
    (l : list A) :
  (forall a, a ∈ l -> f a = Ok (h a)) -> result_map f l = Ok (h <$> l).
Proof.
  induction l as [|a l IH]; intros Hf; [done|]. simpl.
  rewrite (Hf a) by by left. result_simpl.
  rewrite IH; [done|]. intros a' Ha'. apply Hf. by right.
Qed.

(** The loop of [odds_ratio_bootstrap] divides the two counts of every
    realization, in order, up to the first division that raises. *)
Lemma odds_ratio_loop (new_nmodels : ndarray) (domains : domain * domain) :
  wf new_nmodels ->
  for_range (nrows new_nmodels) (odds_ratio_step new_nmodels domains)
    (zeros1 (nrows new_nmodels))
  = result_map
      (fun row => truediv (domain_count row domains.1)
                    (domain_count row domains.2))
      (rows new_nmodels).
Proof.
  intros [Hr Hc].
  rewrite <- (result_map_index _ (rows new_nmodels)), Hr.
  rewrite <- (for_range_fill _ (nrows new_nmodels)
                (zeros1 (nrows new_nmodels)))
    by (unfold zeros1; by rewrite length_replicate).
  apply for_range_ext. intros ii acc Hii.
  unfold odds_ratio_step, get_row. result_simpl.
  destruct (Nat.ltb_spec ii (nrows new_nmodels)); [|lia].
  destruct (index (rows new_nmodels) ii) as [row|]; [|done]. result_simpl.
  by destruct (truediv _ _).
Qed.

(** X10. When every realization drawn by [odds_ratio_bootstrap] has a
    sample in the second domain, the call returns the mean and the
    standard deviation of the ratios, one per realization and in the order
    of the realizations, of the count of the first domain to the count of
    the second. *)
Theorem odds_ratio_bootstrap_ratios {G : Generator} {L : Numerics}
    (hmcore : accessor string) (num_reals : nat)
    (domains : domain * domain) (w w' : world) (thinned : list float)
    (t : float) (tau : Z) (num_samples : nat) (new_nmodels : ndarray) :
  integrated_time (chain hmcore "nmodel"%string) = Ok t ->
  Py.int t = Ok tau ->
  slice_step (chain hmcore "nmodel"%string) tau = Ok thinned ->
  tenth_of_len thinned = Ok num_samples ->
  choice (length (generators w)) (chain hmcore "nmodel"%string)
    (num_reals, num_samples) (default_rng w).2 = (Ok new_nmodels, w') ->
  (forall row, row ∈ rows new_nmodels -> domain_count row domains.2 <> 0) ->
  let ors :=
    (fun row => (float_of_nat (domain_count row domains.1)
                 / float_of_nat (domain_count row domains.2))%float)
      <$> rows new_nmodels in
  odds_ratio_bootstrap hmcore num_reals domains w
  = (Ok (np_mean ors, np_std ors), w') /\
  length ors = num_reals.
Proof.
  intros Ht Htau Hthin Hnum Hdraw Hpos ors.
  rewrite (odds_ratio_bootstrap_unfold _ _ _ _ _ _ _ _ Ht Htau Hthin Hnum).
  rewrite Hdraw.
  destruct (choice_ok_post _ _ _ _ _ _ _ Hdraw)
    as [Hwf Hnr _ _ _ _ _ _ _].
  rewrite <- Hnr, (odds_ratio_loop _ _ Hwf).
  rewrite (result_map_all_ok _
             (fun row => (float_of_nat (domain_count row domains.1)
                          / float_of_nat (domain_count row domains.2))%float)).
  - split; [done|]. unfold ors. rewrite length_fmap. apply Hwf.
  - intros row Hrow. unfold truediv.
    by destruct (Nat.eqb_spec (domain_count row domains.2) 0);
      [destruct (Hpos row Hrow)|].
Qed.

Lemma odds_ratio_bootstrap_ratios_witness :
  let ors :=
    (fun row => (float_of_nat (domain_count row default_domains.1)
                 / float_of_nat (domain_count row default_domains.2))%float)
      <$> [[1; 0.25; 0.75]; [0; 1; 0.75]]%float in
  (exists w',
     @odds_ratio_bootstrap tape_generator tau_2_numerics
       (mk_accessor ["nmodel"%string]
          (fun _ => chain two_model_core "nmodel"%string
                    ++ chain two_model_core "nmodel"%string
                    ++ chain two_model_core "nmodel"%string))
       2 default_domains (loaded_world [] [[1; 2; 3; 4; 5; 7]])
     = (Ok (@np_mean tau_2_numerics ors, @np_std tau_2_numerics ors), w')) /\
  ors = [0.5; 0.5]%float.
Proof.
  cbv zeta. split; [|vm_compute; reflexivity]. eexists.
  refine (proj1 (@odds_ratio_bootstrap_ratios tape_generator tau_2_numerics
           (mk_accessor ["nmodel"%string]
              (fun _ => chain two_model_core "nmodel"%string
                        ++ chain two_model_core "nmodel"%string
                        ++ chain two_model_core "nmodel"%string))
           2 default_domains (loaded_world [] [[1; 2; 3; 4; 5; 7]]) _
           (two_model_thinned ++ two_model_thinned ++ two_model_thinned)
           2.5%float 2%Z 3
           (mk_ndarray 2 3 [[1; 0.25; 0.75]; [0; 1; 0.75]]%float)
           _ _ _ _ _ _)).
  - reflexivity.
  - vm_compute. reflexivity.
  - vm_compute. reflexivity.
  - vm_compute. reflexivity.
  - vm_compute. reflexivity.
  - intros row Hrow. simpl in Hrow.
    apply elem_of_cons in Hrow as [->|Hrow]; [vm_compute; discriminate|].
    apply list_elem_of_singleton in Hrow as ->. vm_compute. discriminate.
Defined.

(** X11. On a hypermodel chain whose thinned array has fewer than ten
    samples the realizations have no sample at all, both counts are zero,
    and [odds_ratio_bootstrap] asked for at least one realization raises
    [ZeroDivisionError], after the generator was made and without any
    draw. *)
Theorem odds_ratio_bootstrap_short_chain {G : Generator} {L : Numerics}
    (hmcore : accessor string) (num_reals : nat)
    (domains : domain * domain) (w : world) (thinned : list float)
    (t : float) (tau : Z) :
  integrated_time (chain hmcore "nmodel"%string) = Ok t ->
  Py.int t = Ok tau ->
  slice_step (chain hmcore "nmodel"%string) tau = Ok thinned ->
  length thinned < 10 ->
  0 < num_reals ->
  odds_ratio_bootstrap hmcore num_reals domains w
  = (Raise ZeroDivisionError, (default_rng w).2).
Proof.
  intros Ht Htau Hthin Hshort Hreals.
  assert (Hlen : length thinned < tenth_bound) by (unfold tenth_bound; lia).
  pose proof (tenth_of_len_bounded _ Hlen) as Hnum.
  rewrite (Nat.div_small _ 10 Hshort) in Hnum.
  rewrite (odds_ratio_bootstrap_unfold _ _ _ _ _ _ _ _ Ht Htau Hthin Hnum).
  destruct (default_rng_fresh w) as [_ Hg].
  rewrite (choice_no_samples _ _ _ _ Hg). cbn [nrows].
  rewrite (for_range_raises (fun ors => length ors = num_reals) num_reals
             _ _ ZeroDivisionError 0); [done| | |done|].
  - unfold zeros1. by rewrite length_replicate.
  - intros jj ors Hjj Hors. right. unfold odds_ratio_step, get_row.
    cbn [nrows rows]. destruct (Nat.ltb_spec jj num_reals); [|lia].
    unfold index. by rewrite lookup_replicate_2.
  - intros ors Hors. unfold odds_ratio_step, get_row.
    cbn [nrows rows]. destruct (Nat.ltb_spec 0 num_reals); [|lia].
    unfold index. by rewrite lookup_replicate_2.
Qed.

Lemma odds_ratio_bootstrap_short_chain_witness :
  @odds_ratio_bootstrap tape_generator tau_2_numerics
    (mk_accessor ["nmodel"%string] (fun _ => [0; 1; 0; 1; 1]%float))
    4 default_domains (loaded_world [] [[1; 2; 3]])
  = (Raise ZeroDivisionError,
     (@default_rng tape_generator (loaded_world [] [[1; 2; 3]])).2).
Proof.
  apply (@odds_ratio_bootstrap_short_chain tape_generator tau_2_numerics
           (mk_accessor ["nmodel"%string] (fun _ => [0; 1; 0; 1; 1]%float))
           4 default_domains (loaded_world [] [[1; 2; 3]])
           [0; 0; 1]%float 2.5%float 2%Z).
  - reflexivity.
  - vm_compute. reflexivity.
  - vm_compute. reflexivity.
  - simpl. lia.
  - lia.
Defined.

(** ** [ti_bootstrap]: which samples a column of the result comes from *)

Lemma get_col_flip (M : ndarray) (j : nat) (col : list float) :
  wf M -> j < ncols M ->
  get_col M (ncols M - 1 - j) = Ok col ->
  get_col (flip M) j = Ok (reverse col).
Proof.
  intros [Hr Hc] Hj Hcol. unfold get_col in *. cbn [ncols rows flip].
  destruct (Nat.ltb_spec (ncols M - 1 - j) (ncols M)); [|lia].
  destruct (Nat.ltb_spec j (ncols M)); [|lia].
  injection Hcol as <-. f_equal.
  rewrite fmap_reverse, <- list_fmap_compose. f_equal.
  apply Forall_fmap_ext. eapply Forall_impl; [exact Hc|].
  intros r Hlen. simpl in Hlen |- *. rewrite reverse_lookup by lia.
  by replace (length r - S j) with (ncols M - 1 - j) by lia.
Qed.

Section Pairing.
Context {G : Generator} {L : Numerics}.

(** A property of the round number and the accumulator that every round
    carries on holds when the loop ends normally. *)
Lemma for_rangeM_invariant_indexed {S : Type} (I : nat -> S -> Prop)
    (n : nat) (body : nat -> S -> M S) (init : S) (w : world) :
  I 0 init ->
  (forall ii s w0 s' w1,
     ii < n -> I ii s -> body ii s w0 = (Ok s', w1) -> I (Datatypes.S ii) s') ->
  forall s' w', for_rangeM n body init w = (Ok s', w') -> I n s'.
Proof.
  intros Hinit Hstep. induction n as [|n IH]; intros s' w' Hrun.
  - by injection Hrun as <- _.
  - rewrite for_rangeM_S in Hrun. unfold M_bind in Hrun.
    destruct (for_rangeM n body init w) as [[s|e] w0]; [|done].
    eapply Hstep; [lia| |done]. eapply IH; [|done].
    intros ii s0 w1 s1 w2 Hii. apply Hstep. lia.
Qed.

Lemma ti_bootstrap_column_pairs (betalike : ndarray) (num_reals rng ii : nat)
    (new_means M' : ndarray) (w w' : world) :
  ti_bootstrap_column betalike num_reals rng ii new_means w = (Ok M', w') ->
  wf new_means -> nrows new_means = num_reals ->
  column_from betalike num_reals M' ii /\
  forall j, j <> ii -> get_col M' j = get_col new_means j.
Proof.
  unfold ti_bootstrap_column. m_simpl. intros Hrun Hwf Hnr.
  destruct (get_col betalike ii) as [col|] eqn:Hcol; [|done].
  destruct (result_bind _ _ _ (integrated_time col)) as [tau|]; [|done].
  destruct (slice_step col tau) as [trimmed|]; [|done].
  destruct (tenth_of_len trimmed) as [num_samples|]; [|done].
  destruct (choice rng col (num_reals, num_samples) w) as [[draws|] w1]
    eqn:Hdraw; [|done].
  destruct (set_col new_means ii _) as [M1|] eqn:Hset; [|done].
  injection Hrun as <- _.
  destruct (choice_ok_post _ _ _ _ _ _ _ Hdraw)
    as [[Hdr Hdc] Hdn _ Hvals _ _ _ _ _].
  assert (Hii : ii < ncols new_means).
  { unfold set_col in Hset.
    by destruct (Nat.leb_spec (ncols new_means) ii). }
  destruct (set_col_spec new_means ii (np_mean <$> rows draws) Hwf Hii)
    as (M2 & HM2 & _ & _ & _ & Hnew & Hold);
    [rewrite length_fmap; lia|].
  rewrite Hset in HM2. injection HM2 as <-.
  split; [|done]. exists col, draws. repeat split; try done. lia.
Qed.

Lemma ti_bootstrap_assemble_pairs (betalike : ndarray)
    (num_chains num_reals : nat) (w w' : world) (assembled : ndarray) :
  ti_bootstrap_assemble betalike num_chains num_reals w
  = (Ok assembled, w') ->
  forall ii, ii < num_chains -> column_from betalike num_reals assembled ii.
Proof.
  unfold ti_bootstrap_assemble. m_simpl.
  destruct (default_rng w) as [[rng|] w0]; [|done]. intros Hrun.
  apply (for_rangeM_invariant_indexed
           (fun n M => (wf M /\ nrows M = num_reals /\ ncols M = num_chains)
                       /\ forall ii, ii < n ->
                            column_from betalike num_reals M ii))
    in Hrun; [by destruct Hrun| |].
  - split; [split; [apply wf_zeros|done]|]. intros ii Hii. lia.
  - intros ii s w1 s' w2 Hii [(Hwf & Hr & Hc) Hcols] Hstep.
    destruct (ti_bootstrap_column_shape _ _ _ _ _ _ _ _ Hstep Hwf)
      as (Hwf' & Hr' & Hc').
    destruct (ti_bootstrap_column_pairs _ _ _ _ _ _ _ _ Hstep Hwf Hr)
      as [Hnew Hold].
    split; [split; [done|split; congruence]|].
    intros j Hj. destruct (decide (j = ii)) as [->|Hne]; [done|].
    destruct (Hcols j) as (col & draws & H1 & H2 & H3 & H4); [lia|].
    exists col, draws. rewrite Hold by done. done.
Qed.

End Pairing.

(** X12. Every column of the matrix returned by [ti_bootstrap] comes from
    one column of its input alone: column [j] of the result lists, last
    realization first, the means of [num_reals] realizations all of whose
    samples are samples of the input column [num_chains - 1 - j]. *)
Theorem ti_bootstrap_column_sources {G : Generator} {L : Numerics}
    (betalike : ndarray) (num_chains num_reals : nat) (w w' : world)
    (new_means : ndarray) (j : nat) :
  ti_bootstrap betalike num_chains num_reals w = (Ok new_means, w') ->
  j < num_chains ->
  exists col draws,
    get_col betalike (num_chains - 1 - j) = Ok col /\
    get_col new_means j = Ok (reverse (np_mean <$> rows draws)) /\
    length (rows draws) = num_reals /\
    forall row x, row ∈ rows draws -> x ∈ row -> x ∈ col.
Proof.
  unfold ti_bootstrap. m_simpl.
  destruct (ti_bootstrap_assemble betalike num_chains num_reals w)
    as [[A|e] w1] eqn:Hrun; [|done].
  intros [= <- <-] Hj.
  destruct (ti_bootstrap_assemble_shape _ _ _ _ _ _ Hrun) as (Hwf & Hr & Hc).
  destruct (ti_bootstrap_assemble_pairs _ _ _ _ _ _ Hrun
              (num_chains - 1 - j)) as (col & draws & H1 & H2 & H3 & H4);
    [lia|].
  exists col, draws. split; [done|]. split; [|done].
  apply get_col_flip; [done|lia|]. by rewrite Hc.
Qed.

Lemma ti_bootstrap_column_sources_witness :
  exists col draws,
    get_col two_columns (2 - 1 - 0) = Ok col /\
    get_col (mk_ndarray 2 2 [[109; 5]; [107; 3]]%float) 0
    = Ok (reverse (@np_mean tau_2_numerics <$> rows draws)) /\
    length (rows draws) = 2 /\
    forall row x, row ∈ rows draws -> x ∈ row -> x ∈ col.
Proof.
  apply (@ti_bootstrap_column_sources tape_generator tau_2_numerics
           two_columns 2 2 (loaded_world [] [[3; 5; 7; 9]])
           (@ti_bootstrap tape_generator tau_2_numerics two_columns 2 2
              (loaded_world [] [[3; 5; 7; 9]])).2
           (mk_ndarray 2 2 [[109; 5]; [107; 3]]%float) 0).
  - vm_compute. reflexivity.
  - lia.
Defined.

(** ** [ti_log_evidence]: failures and generators *)

(** X13. On an accessor without parameter names [ti_log_evidence] raises
    the [ValueError] of [make_betalike] before anything else happens: no
    generator is made and the interpreter state is unchanged. *)
Theorem ti_log_evidence_no_params {G : Generator} {L : Numerics}
    {Q : Quadrature} (slices_core : accessor float) (iterations : nat)
    (w : world) :
  params slices_core = [] ->
  ti_log_evidence slices_core iterations w = (Raise ValueError, w).
Proof.
  intros Hp. unfold ti_log_evidence. m_simpl.
  unfold make_betalike. by rewrite chain_lengths_loop_ok, Hp.
Qed.

Lemma ti_log_evidence_no_params_witness :
  @ti_log_evidence tape_generator tau_2_numerics
    (mk_quadrature (fun x => x) (fun x => x) (fun a b n => [a; b])
       (fun x y => Ok (fun x_new => Ok y)) (fun y x => Ok (seq_mean y)))
    (mk_accessor [] ladder_chain) 5 (loaded_world [] [[1; 2]])
  = (Raise ValueError, loaded_world [] [[1; 2]]).
Proof.
  apply (@ti_log_evidence_no_params tape_generator tau_2_numerics
           (mk_quadrature (fun x => x) (fun x => x) (fun a b n => [a; b])
              (fun x y => Ok (fun x_new => Ok y))
              (fun y x => Ok (seq_mean y)))
           (mk_accessor [] ladder_chain) 5 (loaded_world [] [[1; 2]])).
  reflexivity.
Defined.

(** X14. With at least one parameter name, every call of
    [ti_log_evidence], whether it returns or raises, makes exactly one
    generator, takes all its draws from that one, and leaves the
    module-level generator and every other generator that existed in the
    state they had. *)
Theorem ti_log_evidence_own_generator {G : Generator} {L : Numerics}
    {Q : Quadrature} (slices_core : accessor float) (iterations : nat)
    (w : world) :
  params slices_core <> [] ->
  fresh_generator_draws_only w
    (ti_log_evidence slices_core iterations w).2.
Proof.
  intros Hne.
  destruct (make_betalike_columns slices_core Hne) as (B & HB & _).
  unfold ti_log_evidence. m_simpl. rewrite HB.
  pose proof (ti_bootstrap_fresh B
                (length ((fun t => (1 / t)%float)
                           <$> reverse (params slices_core)))
                iterations w) as Hfresh.
  destruct (ti_bootstrap B _ iterations w) as [[new_means|e] w1]; [|done].
  destruct (index _ 0) as [x_first|]; [|done].
  destruct (index_last _) as [x_last|]; [|done].
  by destruct (for_range _ _ _).
Qed.

Lemma ti_log_evidence_own_generator_witness :
  fresh_generator_draws_only (loaded_world [] [[1; 2; 3; 4; 5; 6]])
    (@ti_log_evidence tape_generator tau_2_numerics
       (mk_quadrature (fun x => x) (fun x => x) (fun a b n => [a; b])
          (fun x y => Ok (fun x_new => Ok y)) (fun y x => Ok (seq_mean y)))
       ladder_core 2 (loaded_world [] [[1; 2; 3; 4; 5; 6]])).2.
Proof.
  apply (@ti_log_evidence_own_generator tape_generator tau_2_numerics
           (mk_quadrature (fun x => x) (fun x => x) (fun a b n => [a; b])
              (fun x y => Ok (fun x_new => Ok y))
              (fun y x => Ok (seq_mean y)))
           ladder_core 2 (loaded_world [] [[1; 2; 3; 4; 5; 6]])).
  discriminate.
Defined.

(** ** [log10_bf]: what is computed before [scale] is looked at *)

(** X19. When the difference of the two nominal values is finite and at
    least 710, [log10_bf] returns on no scale, known or not: it raises,
    and what it raises is the [OverflowError] of the exponential whenever
    the two numbers with uncertainty and their difference were made. *)
Theorem log10_bf_large_difference_raises {M : MathLib} {U : Uncertainties}
    (log_ev1 log_ev2 : float * float) (scale : string) :
  PrimFloat.leb 710 (log_ev2.1 - log_ev1.1) = true ->
  PrimFloat.ltb (log_ev2.1 - log_ev1.1) infinity = true ->
  (exists e, log10_bf log_ev1 log_ev2 scale = Raise e) /\
  forall u1 u2 d,
    ufloat log_ev1 = Ok u1 -> ufloat log_ev2 = Ok u2 -> usub u2 u1 = Ok d ->
    log10_bf log_ev1 log_ev2 scale = Raise OverflowError.
Proof.
  intros Hge Hfin.
  destruct (log10_bf_terms_overflow log_ev1 log_ev2 Hge Hfin)
    as [[e He] Hover].
  split.
  - exists e. unfold log10_bf. by rewrite He.
  - intros u1 u2 d H1 H2 Hd. unfold log10_bf.
    by rewrite (Hover u1 u2 d H1 H2 Hd).
Qed.

Lemma log10_bf_large_difference_raises_witness :
  (exists e,
     @log10_bf sample_math sample_uncertainties (0, 0.5)%float
       (1000, 0.5)%float "log10" = Raise e) /\
  forall u1 u2 d,
    @ufloat sample_math sample_uncertainties (0, 0.5)%float = Ok u1 ->
    @ufloat sample_math sample_uncertainties (1000, 0.5)%float = Ok u2 ->
    @usub sample_math sample_uncertainties u2 u1 = Ok d ->
    @log10_bf sample_math sample_uncertainties (0, 0.5)%float
      (1000, 0.5)%float "log10" = Raise OverflowError.
Proof.
  apply (@log10_bf_large_difference_raises sample_math sample_uncertainties
           (0, 0.5)%float (1000, 0.5)%float "log10");
    vm_compute; reflexivity.
Defined.

(** X21. When the difference of the two nominal values is at most -750,
    [log10_bf] returns on no scale either: the exponential underflows to
    zero, and the call raises the [ValueError] of the logarithm of zero
    whenever the steps before the logarithm succeeded. *)
Theorem log10_bf_small_difference_raises {M : MathLib} {U : Uncertainties}
    (log_ev1 log_ev2 : float * float) (scale : string) :
  PrimFloat.leb (log_ev2.1 - log_ev1.1) (-750) = true ->
  (exists e, log10_bf log_ev1 log_ev2 scale = Raise e) /\
  forall u1 u2 d bf,
    ufloat log_ev1 = Ok u1 -> ufloat log_ev2 = Ok u2 -> usub u2 u1 = Ok d ->
    umath_exp d = Ok bf ->
    nominal_value bf = 0%float /\
    log10_bf log_ev1 log_ev2 scale = Raise ValueError.
Proof.
  intros Hle.
  assert (Hzero : forall u1 u2 d bf,
            ufloat log_ev1 = Ok u1 -> ufloat log_ev2 = Ok u2 ->
            usub u2 u1 = Ok d -> umath_exp d = Ok bf ->
            nominal_value bf = 0%float /\
            log10_bf log_ev1 log_ev2 scale = Raise ValueError).
  { intros u1 u2 d bf H1 H2 Hd Hbf.
    assert (Hn : nominal_value bf = 0%float).
    { pose proof (umath_exp_nominal _ _ Hbf) as Hexp.
      rewrite (math_exp_underflow (nominal_value d)) in Hexp
        by (by rewrite (usub_nominal _ _ _ Hd), (ufloat_nominal _ _ H1),
              (ufloat_nominal _ _ H2)).
      by apply (f_equal (fun r => match r with
                                  | Ok v => v
                                  | Raise _ => nominal_value bf
                                  end)) in Hexp. }
    split; [done|].
    unfold log10_bf, log10_bf_terms. result_simpl.
    rewrite H1. result_simpl. rewrite H2. result_simpl.
    rewrite Hd. result_simpl. rewrite Hbf. result_simpl.
    rewrite (umath_log10_raise bf ValueError); [done|].
    rewrite Hn. by apply math_log10_domain. }
  split; [|done].
  unfold log10_bf, log10_bf_terms. result_simpl.
  destruct (ufloat log_ev1) as [u1|e] eqn:H1; [|by exists e].
  result_simpl.
  destruct (ufloat log_ev2) as [u2|e] eqn:H2; [|by exists e].
  result_simpl.
  destruct (usub u2 u1) as [d|e] eqn:Hd; [|by exists e].
  result_simpl.
  destruct (umath_exp d) as [bf|e] eqn:Hbf; [|by exists e].
  exists ValueError.
  destruct (Hzero u1 u2 d bf) as [_ Hraise]; [done..|].
  revert Hraise. unfold log10_bf, log10_bf_terms. result_simpl.
  rewrite H1. result_simpl. rewrite H2. result_simpl.
  rewrite Hd. result_simpl. by rewrite Hbf.
Qed.

Lemma log10_bf_small_difference_raises_witness :
  (exists e,
     @log10_bf sample_math sample_uncertainties (0, 0.5)%float
       (-800, 0.5)%float "1" = Raise e) /\
  forall u1 u2 d bf,
    @ufloat sample_math sample_uncertainties (0, 0.5)%float = Ok u1 ->
    @ufloat sample_math sample_uncertainties (-800, 0.5)%float = Ok u2 ->
    @usub sample_math sample_uncertainties u2 u1 = Ok d ->
    @umath_exp sample_math sample_uncertainties d = Ok bf ->
    @nominal_value sample_math sample_uncertainties bf = 0%float /\
    @log10_bf sample_math sample_uncertainties (0, 0.5)%float
      (-800, 0.5)%float "1" = Raise ValueError.
Proof.
  apply (@log10_bf_small_difference_raises sample_math sample_uncertainties
           (0, 0.5)%float (-800, 0.5)%float "1").
  vm_compute. reflexivity.
Defined.

(** X22. An exception of [ufloat] on either input is the exception of
    [log10_bf], on every scale, known or not: the two numbers with
    uncertainty are made before anything else. *)
Theorem log10_bf_ufloat_raises {M : MathLib} {U : Uncertainties}
    (log_ev1 log_ev2 : float * float) (scale : string) (e : exn) :
  ufloat log_ev1 = Raise e \/
  (exists u1, ufloat log_ev1 = Ok u1) /\ ufloat log_ev2 = Raise e ->
  log10_bf log_ev1 log_ev2 scale = Raise e.
Proof.
  unfold log10_bf, log10_bf_terms. result_simpl.
  intros [H1|[[u1 H1] H2]]; rewrite H1; [done|].
  result_simpl. by rewrite H2.
Qed.

Lemma log10_bf_ufloat_raises_witness :
  @log10_bf sample_math uncertainties_no_tuple (-100, 0.5)%float
    (-98, 0.5)%float "log10" = Raise TypeError /\
  @log10_bf sample_math sample_uncertainties (-100, 0.5)%float
    (-98, -0.5)%float "log10" = Raise NegativeStdDev.
Proof.
  split.
  - apply (@log10_bf_ufloat_raises sample_math uncertainties_no_tuple
             (-100, 0.5)%float (-98, 0.5)%float "log10" TypeError).
    left. reflexivity.
  - apply (@log10_bf_ufloat_raises sample_math sample_uncertainties
             (-100, 0.5)%float (-98, -0.5)%float "log10" NegativeStdDev).
    right. split; [eexists|]; vm_compute; reflexivity.
Defined.

(** ** [core_to_txt]: what is written, and where *)




Lemma fs_write_writable (outfile text : string) (fs : filesystem) :
  writable (fs_write outfile text fs) = writable fs.
Proof. done. Qed.

Section TextOutput.
Context {K : Type} {F : Formatting K}.




End TextOutput.

(** X17. On an accessor without parameter names [core_to_txt] raises the
    [ValueError] of [make_betalike] before the file is opened: no file is
    made, emptied or written. *)
Theorem core_to_txt_no_params {K : Type} {F : Formatting K}
    (slices_core : accessor K) (outfile : string) (fs : filesystem) :
  params slices_core = [] ->
  core_to_txt slices_core outfile fs = (Raise ValueError, fs).
Proof.
  intros Hp. unfold core_to_txt, make_betalike.
  by rewrite chain_lengths_loop_ok, Hp.
Qed.

Lemma core_to_txt_no_params_witness :
  @core_to_txt float digit_formatting (mk_accessor [] ladder_chain)
    "out.txt" sample_files
  = (Raise ValueError, sample_files).
Proof.
  apply (@core_to_txt_no_params float digit_formatting
           (mk_accessor [] ladder_chain) "out.txt" sample_files).
  reflexivity.
Defined.




